(** * youtube_downloader.py: the retrieval facade and the archive builder

    A shallow embedding of class [YouTubeDownloader] of
    [src/youtube_downloader.py] and proofs of the properties its
    specification states.

    Conventions of the embedding.
    - A Python [str] is a Rocq [string]; one [ascii] stands for one character.
    - A Python [int] is a [Z]; [//] and [%] by a positive constant are
      [Z.div] and [Z.modulo] (both round towards minus infinity).
    - A Python [dict] is an association list in insertion order, looked up
      from the front.
    - Code that may raise returns an [outcome] whose exceptions are the
      instances of [Exception]; [try: ... except Exception] is [try_except].
      What only derives from [BaseException] (an interrupt, an exit) is not
      modelled, and neither are floating-point values.
    - [print] and the creation of the output directory are not observed by
      any operation and are left out.
    - The yt-dlp library is an interface ([YtDlp.api]) whose operations are
      arbitrary functions: every theorem holds for every behaviour of the
      library.
    - The operating system is an interface as well ([OS.api]): creating the
      archive, storing a file into it and closing it may each fail, and
      where the archive lies with respect to the walked folder is for the
      system to say.
    - Paths follow [pathlib.PurePosixPath]. *)

From Stdlib Require Import ZArith List String Ascii Bool Lia DecimalString.
From Stdlib Require Import Permutation.
From Stdlib Require DecimalPos DecimalZ.
Import ListNotations.

Set Warnings "-register-all".

Local Open Scope string_scope.
Local Open Scope Z_scope.

(** ** Python values, exceptions and the operations the facade applies *)

Module Py.

(** The values an info dictionary of yt-dlp holds at the keys the facade
    reads: [None], integers, strings, lists (the entries of a playlist) and
    nested dictionaries. *)
Inductive value : Type :=
| VNone
| VInt (z : Z)
| VStr (s : string)
| VList (l : list value)
| VDict (d : list (string * value)).

Definition dict : Type := list (string * value).

(** An instance of [Exception]: its class name and [str(e)]. *)
Record exception : Type := mkExc { exc_class : string; exc_str : string }.

Inductive outcome (A : Type) : Type :=
| Ok (a : A)
| Raise (e : exception).
Arguments Ok {A} a.
Arguments Raise {A} e.

Definition bind {A B : Type} (m : outcome A) (k : A -> outcome B) : outcome B :=
  match m with
  | Ok a => k a
  | Raise e => Raise e
  end.

(** [try: body / except Exception as e: handler e] *)
Definition try_except {A : Type} (body : outcome A) (handler : exception -> outcome A)
  : outcome A :=
  match body with
  | Ok a => Ok a
  | Raise e => handler e
  end.

Definition TypeError (msg : string) : exception := mkExc "TypeError" msg.
Definition AttributeError (msg : string) : exception := mkExc "AttributeError" msg.
Definition KeyError (msg : string) : exception := mkExc "KeyError" msg.

(** [type(v).__name__] *)
Definition type_name (v : value) : string :=
  match v with
  | VNone => "NoneType"
  | VInt _ => "int"
  | VStr _ => "str"
  | VList _ => "list"
  | VDict _ => "dict"
  end.

(** *** Strings *)

Definition str_take (n : nat) (s : string) : string := substring 0 n s.

(** [s[:k]] for a string: a negative [k] counts from the end. *)
Definition str_slice_to (k : Z) (s : string) : string :=
  if k <? 0
  then str_take (Z.to_nat (Z.of_nat (String.length s) + k)) s
  else str_take (Z.to_nat k) s.

(** [l[:k]] for a list. *)
Definition list_slice_to {A : Type} (k : Z) (l : list A) : list A :=
  if k <? 0
  then firstn (Z.to_nat (Z.of_nat (List.length l) + k)) l
  else firstn (Z.to_nat k) l.

Fixpoint str_contains (c : ascii) (s : string) : bool :=
  match s with
  | EmptyString => false
  | String a s' => Ascii.eqb a c || str_contains c s'
  end.

Fixpoint str_join (sep : string) (l : list string) : string :=
  match l with
  | [] => ""
  | [x] => x
  | x :: rest => x ++ sep ++ str_join sep rest
  end.

Fixpoint str_repeat (n : nat) (s : string) : string :=
  match n with
  | O => ""
  | S n' => s ++ str_repeat n' s
  end.

(** *** Integers as text *)

(** [str(z)] for an [int]. *)
Definition str_of_int (z : Z) : string := NilZero.string_of_int (Z.to_int z).

(** [format(z, "0<width>d")]: the sign first, then zeros up to the width,
    then the digits. *)
Definition format_0d (width : nat) (z : Z) : string :=
  let sign := if z <? 0 then "-" else "" in
  let digits := str_of_int (Z.abs z) in
  sign ++ str_repeat (width - String.length sign - String.length digits) "0" ++ digits.

(** *** [repr] and [str] *)

Definition hex_digit (n : N) : ascii :=
  match n with
  | 0%N => "0" | 1%N => "1" | 2%N => "2" | 3%N => "3" | 4%N => "4"
  | 5%N => "5" | 6%N => "6" | 7%N => "7" | 8%N => "8" | 9%N => "9"
  | 10%N => "a" | 11%N => "b" | 12%N => "c" | 13%N => "d" | 14%N => "e"
  | _ => "f"
  end%char.

Definition backslash : ascii := "\"%char.
Definition squote : ascii := "'"%char.
Definition dquote : ascii := ascii_of_nat 34.

Definition repr_char (quote c : ascii) : string :=
  let n := N_of_ascii c in
  if Ascii.eqb c quote || Ascii.eqb c backslash then String backslash (String c "")
  else if (n =? 9)%N then String backslash "t"
  else if (n =? 10)%N then String backslash "n"
  else if (n =? 13)%N then String backslash "r"
  else if (n <? 32)%N || (n =? 127)%N || ((128 <=? n)%N && (n <=? 160)%N) || (n =? 173)%N
       then String backslash (String "x" (String (hex_digit (n / 16)) (String (hex_digit (n mod 16)) "")))
  else String c "".

Fixpoint repr_chars (quote : ascii) (s : string) : string :=
  match s with
  | EmptyString => ""
  | String c s' => repr_char quote c ++ repr_chars quote s'
  end.

(** [repr(s)] for a string: single quotes, unless the string holds a single
    quote and no double quote. *)
Definition repr_str (s : string) : string :=
  let quote := if str_contains squote s && negb (str_contains dquote s)
               then dquote else squote in
  String quote (repr_chars quote s ++ String quote "").

Fixpoint repr (v : value) : string :=
  match v with
  | VNone => "None"
  | VInt z => str_of_int z
  | VStr s => repr_str s
  | VList l => "[" ++ str_join ", " (map repr l) ++ "]"
  | VDict d =>
      "{" ++ str_join ", " (map (fun kv => repr_str (fst kv) ++ ": " ++ repr (snd kv)) d) ++ "}"
  end.

(** [str(v)], which is also what an f-string field without a format
    specification yields. *)
Definition str (v : value) : string :=
  match v with
  | VStr s => s
  | _ => repr v
  end.

(** *** Dictionaries *)

Fixpoint dict_lookup (k : string) (d : dict) : option value :=
  match d with
  | [] => None
  | (k', v) :: rest => if String.eqb k' k then Some v else dict_lookup k rest
  end.

(** [k in d] *)
Definition dict_contains (k : string) (d : dict) : bool :=
  match dict_lookup k d with
  | Some _ => true
  | None => false
  end.

(** [d.get(k, default)] *)
Definition dict_get (d : dict) (k : string) (default : value) : value :=
  match dict_lookup k d with
  | Some v => v
  | None => default
  end.

(** [d[k]] *)
Definition dict_item (d : dict) (k : string) : outcome value :=
  match dict_lookup k d with
  | Some v => Ok v
  | None => Raise (KeyError (repr_str k))
  end.

(** *** Operators on values *)

(** [len(v)] *)
Definition len (v : value) : outcome Z :=
  match v with
  | VStr s => Ok (Z.of_nat (String.length s))
  | VList l => Ok (Z.of_nat (List.length l))
  | VDict d => Ok (Z.of_nat (List.length d))
  | _ => Raise (TypeError ("object of type '" ++ type_name v ++ "' has no len()"))
  end.

(** [v[:k]] *)
Definition slice_to (k : Z) (v : value) : outcome value :=
  match v with
  | VStr s => Ok (VStr (str_slice_to k s))
  | VList l => Ok (VList (list_slice_to k l))
  | VDict _ => Raise (TypeError "unhashable type: 'slice'")
  | _ => Raise (TypeError ("'" ++ type_name v ++ "' object is not subscriptable"))
  end.

(** [v + s] for a string literal [s] *)
Definition add_str (v : value) (s : string) : outcome value :=
  match v with
  | VStr t => Ok (VStr (t ++ s))
  | VList _ => Raise (TypeError ("can only concatenate list (not " ++ String dquote "str"
                                   ++ String dquote ") to list"))
  | _ => Raise (TypeError ("unsupported operand type(s) for +: '" ++ type_name v
                             ++ "' and 'str'"))
  end.

(** [v // n] for a positive integer literal [n] *)
Definition floordiv (v : value) (n : Z) : outcome Z :=
  match v with
  | VInt z => Ok (z / n)
  | _ => Raise (TypeError ("unsupported operand type(s) for //: '" ++ type_name v
                             ++ "' and 'int'"))
  end.

(** [v % n] for a positive integer literal [n]; on a string [%] is
    formatting, which finds no conversion to fill. *)
Definition modulo (v : value) (n : Z) : outcome Z :=
  match v with
  | VInt z => Ok (z mod n)
  | VStr _ => Raise (TypeError "not all arguments converted during string formatting")
  | _ => Raise (TypeError ("unsupported operand type(s) for %: '" ++ type_name v
                             ++ "' and 'int'"))
  end.

(** [entry.get(k)] on a value that should be a dictionary *)
Definition get_attr_get (v : value) (k : string) : outcome value :=
  match v with
  | VDict d => Ok (dict_get d k VNone)
  | _ => Raise (AttributeError ("'" ++ type_name v ++ "' object has no attribute 'get'"))
  end.

Definition ZeroDivisionError (msg : string) : exception := mkExc "ZeroDivisionError" msg.
Definition ValueError (msg : string) : exception := mkExc "ValueError" msg.

(** The truth value of [v] in a condition. *)
Definition truthy (v : value) : bool :=
  match v with
  | VNone => false
  | VInt z => negb (z =? 0)
  | VStr s => negb (String.eqb s "")
  | VList l => match l with [] => false | _ => true end
  | VDict d => match d with [] => false | _ => true end
  end.

(** [v == s] for a string literal [s] *)
Definition eq_str (v : value) (s : string) : bool :=
  match v with
  | VStr t => String.eqb t s
  | _ => false
  end.

(** [a / b]. The quotient of two integers is a float, the one nearest to
    the fraction; it is kept as the fraction it comes from (numerator,
    denominator). A fraction that rounds to 2^1024 or beyond, as those from
    2^1024 - 2^970 on do, is too large for a float. *)
Definition truediv (a b : value) : outcome (Z * Z) :=
  match a, b with
  | VInt x, VInt y =>
      if y =? 0 then Raise (ZeroDivisionError "division by zero")
      else if (2 ^ 1024 - 2 ^ 970) * Z.abs y <=? Z.abs x
           then Raise (mkExc "OverflowError" "integer division result too large for a float")
           else Ok (x, y)
  | _, _ => Raise (TypeError ("unsupported operand type(s) for /: '" ++ type_name a
                               ++ "' and '" ++ type_name b ++ "'"))
  end.

Definition comma : ascii := ","%char.

Definition not_comma (c : ascii) : bool := negb (Ascii.eqb c comma).

(** A comma after every third digit, on the digits from the right. *)
Fixpoint insert_commas (reversed : list ascii) : list ascii :=
  match reversed with
  | a :: b :: c :: ((_ :: _) as rest) => a :: b :: c :: comma :: insert_commas rest
  | _ => reversed
  end.

(** [format(z, ",")] for an [int] *)
Definition format_comma_int (z : Z) : string :=
  (if z <? 0 then "-" else "")
  ++ string_of_list_ascii
       (rev (insert_commas (rev (list_ascii_of_string (str_of_int (Z.abs z)))))).

(** [format(v, ",")], the field [{v:,}] of an f-string *)
Definition format_comma (v : value) : outcome string :=
  match v with
  | VInt z => Ok (format_comma_int z)
  | VStr _ => Raise (ValueError "Cannot specify ',' with 's'.")
  | _ => Raise (TypeError ("unsupported format string passed to " ++ type_name v
                             ++ ".__format__"))
  end.

(** The elements a [for] loop over [v] visits. *)
Definition iter (v : value) : outcome (list value) :=
  match v with
  | VList l => Ok l
  | VStr s => Ok (map (fun c => VStr (String c "")) (list_ascii_of_string s))
  | VDict d => Ok (map (fun kv => VStr (fst kv)) d)
  | _ => Raise (TypeError ("'" ++ type_name v ++ "' object is not iterable"))
  end.

(** [[f x for x in l]] *)
Fixpoint comprehension {A B : Type} (f : A -> outcome B) (l : list A) : outcome (list B) :=
  match l with
  | [] => Ok []
  | x :: rest =>
      bind (f x) (fun y => bind (comprehension f rest) (fun ys => Ok (y :: ys)))
  end.

(** [for x in l: acc = f acc x] *)
Fixpoint for_each {A S : Type} (f : S -> A -> outcome S) (l : list A) (acc : S) : outcome S :=
  match l with
  | [] => Ok acc
  | x :: rest => bind (f acc x) (fun acc' => for_each f rest acc')
  end.

End Py.

Notation "x <- m ;; k" := (Py.bind m (fun x => k))
  (at level 61, m at next level, right associativity).


(** ** pathlib: pure POSIX paths *)

Module PathLib.

(** A parsed path: the root ([""], ["/"] or ["//"]) and the components
    after it. *)
Record Path : Type := mkPath { root : string; parts : list string }.

Definition slash : ascii := "/"%char.

(** [s.split("/")] *)
Fixpoint split_slash (s : string) : list string :=
  match s with
  | EmptyString => [""]
  | String c s' =>
      if Ascii.eqb c slash then "" :: split_slash s'
      else match split_slash s' with
           | h :: t => String c h :: t
           | [] => [String c ""]
           end
  end.

(** [posixpath.splitroot]: one leading slash or three and more make the
    root ["/"], exactly two make it ["//"]. *)
Definition splitroot (s : string) : string :=
  match s with
  | String a (String b (String c _)) =>
      if Ascii.eqb a slash
      then if Ascii.eqb b slash && negb (Ascii.eqb c slash) then "//" else "/"
      else ""
  | String a (String b EmptyString) =>
      if Ascii.eqb a slash then if Ascii.eqb b slash then "//" else "/" else ""
  | String a EmptyString => if Ascii.eqb a slash then "/" else ""
  | EmptyString => ""
  end.

Definition kept_component (x : string) : bool :=
  negb (String.eqb x "") && negb (String.eqb x ".").

(** [Path(s)]: empty components and ["."] are dropped, [".."] is kept. *)
Definition parse (s : string) : Path :=
  mkPath (splitroot s) (filter kept_component (split_slash s)).

(** [str(p)] *)
Definition to_str (p : Path) : string :=
  match parts p with
  | [] => if String.eqb (root p) "" then "." else root p
  | _ => root p ++ Py.str_join "/" (parts p)
  end.

(** [p / s]: an absolute right operand replaces the left one. *)
Definition div (p : Path) (s : string) : Path :=
  let q := parse s in
  if String.eqb (root q) "" then mkPath (root p) (parts p ++ parts q) else q.

(** [p / v] where [v] is any value: only a [str] can be joined. *)
Definition div_value (p : Path) (v : Py.value) : Py.outcome Path :=
  match v with
  | Py.VStr s => Py.Ok (div p s)
  | _ => Py.Raise (Py.TypeError ("unsupported operand type(s) for /: 'PosixPath' and '"
                                  ++ Py.type_name v ++ "'"))
  end.

(** The path of the directory entry [name] of directory [p]. *)
Definition child (p : Path) (name : string) : Path :=
  mkPath (root p) (parts p ++ [name]).

(** [p.parent]: a path without components is its own parent. *)
Definition parent (p : Path) : Path := mkPath (root p) (removelast (parts p)).

(** [p.name] *)
Definition name (p : Path) : string := last (parts p) "".

Fixpoint strip_prefix (pre l : list string) : option (list string) :=
  match pre, l with
  | [], _ => Some l
  | x :: pre', y :: l' => if String.eqb x y then strip_prefix pre' l' else None
  | _ :: _, [] => None
  end.

(** [p.relative_to(other)] *)
Definition relative_to (p other : Path) : Py.outcome Path :=
  if String.eqb (root p) (root other)
  then match strip_prefix (parts other) (parts p) with
       | Some rest => Py.Ok (mkPath "" rest)
       | None => Py.Raise (Py.mkExc "ValueError"
                   (Py.repr_str (to_str p) ++ " is not in the subpath of "
                      ++ Py.repr_str (to_str other)))
       end
  else Py.Raise (Py.mkExc "ValueError"
         (Py.repr_str (to_str p) ++ " is not in the subpath of " ++ Py.repr_str (to_str other))).

End PathLib.

(** ** The directory tree that [create_zip] walks *)

Module FS.

Definition bytes : Type := list Byte.byte.

(** What a symbolic link resolves to. *)
Inductive link_target : Type :=
| ToFile (data : bytes)
| ToDir
| ToSpecial
| Dangling.

(** A directory entry: a regular file with its content, a directory with
    its named entries, a symbolic link, or a special file (FIFO, socket,
    device). *)
Inductive node : Type :=
| File (data : bytes)
| Dir (entries : list (string * node))
| Symlink (target : link_target)
| Special.

(** [Path.is_file()] follows symbolic links: it holds of a regular file and
    of a link that resolves to one. *)
Definition is_file (n : node) : bool :=
  match n with
  | File _ => true
  | Symlink (ToFile _) => true
  | _ => false
  end.

(** The bytes that opening the entry for reading yields. *)
Definition read_bytes (n : node) : bytes :=
  match n with
  | File data => data
  | Symlink (ToFile data) => data
  | _ => []
  end.

(** Every entry below a directory, with its path relative to that
    directory: each entry is listed, and directories (not links to
    directories) are descended into. pathlib fixes no order for the walk;
    what is proved about the archive does not depend on it. *)
Fixpoint walk (n : node) : list (list string * node) :=
  match n with
  | Dir entries =>
      flat_map (fun e => ([fst e], snd e)
                           :: map (fun r => (fst e :: fst r, snd r)) (walk (snd e)))
               entries
  | _ => []
  end.

(** The entries of a directory once the entry [name] is [new]: it takes
    the place of the entry of that name, or comes last. *)
Fixpoint set_entry (name : string) (new : node) (entries : list (string * node))
  : list (string * node) :=
  match entries with
  | [] => [(name, new)]
  | e :: rest =>
      if String.eqb (fst e) name then (fst e, new) :: rest
      else e :: set_entry name new rest
  end.

(** The tree once the file at the relative path [rel] is [new]. The path
    leads through directories; where it does not, nothing is reached and
    the tree is as it was. *)
Fixpoint put (rel : list string) (new : node) (tree : node) {struct rel} : node :=
  match rel with
  | [] => tree
  | [name] =>
      match tree with
      | Dir entries => Dir (set_entry name new entries)
      | _ => tree
      end
  | name :: rest =>
      match tree with
      | Dir entries =>
          Dir (map (fun e => if String.eqb (fst e) name
                             then (fst e, put rest new (snd e)) else e)
                   entries)
      | _ => tree
      end
  end.

(** [folder.rglob("*")] where [tree] is what [folder] names. *)
Definition rglob_star (folder : PathLib.Path) (tree : node) : list (PathLib.Path * node) :=
  map (fun r => (fold_left PathLib.child (fst r) folder, snd r)) (walk tree).

End FS.

(** Induction on a tree whose directories hold lists of trees. *)
Section NodeInduction.

Variable P : FS.node -> Prop.
Hypothesis P_file : forall data, P (FS.File data).
Hypothesis P_dir : forall entries, Forall (fun e => P (snd e)) entries -> P (FS.Dir entries).
Hypothesis P_link : forall target, P (FS.Symlink target).
Hypothesis P_special : P FS.Special.

Fixpoint node_induction (n : FS.node) : P n :=
  match n with
  | FS.File data => P_file data
  | FS.Dir entries =>
      P_dir entries
        ((fix all (l : list (string * FS.node)) : Forall (fun e => P (snd e)) l :=
            match l with
            | [] => Forall_nil _
            | e :: l' => Forall_cons e (node_induction (snd e)) (all l')
            end) entries)
  | FS.Symlink target => P_link target
  | FS.Special => P_special
  end.

End NodeInduction.

(** ** The operating system, as [create_zip] meets it *)

Module OS.

(** What the operating system answers to the file operations of
    [create_zip]; each may fail. Every theorem holds for every such
    system.
    - [open_archive path]: [zipfile.ZipFile(path, "w", ZIP_DEFLATED)], which
      creates the archive file, empty, or raises (no such directory, no
      permission, a directory of that name).
    - [inside archive folder]: where the created archive lies in the folder
      that is walked, as its path relative to that folder; [None] when it
      lies outside. This is for the system to say: it depends on the
      current directory, on [..] and on links.
    - [archive_bytes]: what is read from the archive file when it is
      stored into itself, that is, what had reached the disk by then.
    - [store_error file]: the exception of [zipf.write(file, ...)] when the
      file cannot be read or stored (no permission, a time stamp before
      1980).
    - [close_archive]: leaving the [with] block, which writes the directory
      of the archive and closes the file. *)
Record api : Type := mkApi {
  open_archive : PathLib.Path -> Py.outcome unit;
  inside : PathLib.Path -> PathLib.Path -> option (list string);
  archive_bytes : FS.bytes;
  store_error : PathLib.Path -> option Py.exception;
  close_archive : Py.outcome unit }.

End OS.

(** ** zipfile *)

Module ZipFile.

Record entry : Type := mkEntry { arcname : PathLib.Path; data : FS.bytes }.

(** An archive opened in mode ["w"] starts empty; entries are kept in the
    order written. *)
Definition t : Type := list entry.

Definition empty : t := [].

(** [zipf.write(path, arcname)] where [file] is what [path] names: the
    entry is appended, unless the file cannot be read or stored. *)
Definition write (os : OS.api) (zipf : t) (path : PathLib.Path) (file : FS.node)
    (arc : PathLib.Path) : Py.outcome t :=
  match OS.store_error os path with
  | Some e => Py.Raise e
  | None => Py.Ok (zipf ++ [mkEntry arc (FS.read_bytes file)])%list
  end.

End ZipFile.

(** ** The yt-dlp library, as the facade sees it *)

Module YtDlp.

Record postprocessor : Type :=
  mkPostprocessor { key : string; preferredcodec : string; preferredquality : string }.

(** The options dictionary given to [YoutubeDL]; an absent key is [None],
    [false] or the empty list. *)
Record options : Type := mkOptions {
  format : option string;
  outtmpl : option string;
  merge_output_format : option string;
  postprocessors : list postprocessor;
  ignoreerrors : bool;
  quiet : bool;
  extract_flat : bool }.

(** The info that [extract_info] returns: a dictionary, or [None]. *)
Definition info : Type := option Py.dict.

(** What [with YoutubeDL(opts) as ydl] offers. Opening the object is part
    of [extract_info], its first use. Both operations may raise, and may
    return anything. *)
Record api : Type := mkApi {
  extract_info : options -> string -> bool -> Py.outcome info;
  prepare_filename : options -> info -> Py.outcome string }.

(** [info[k]] *)
Definition item (i : info) (k : string) : Py.outcome Py.value :=
  match i with
  | Some d => Py.dict_item d k
  | None => Py.Raise (Py.TypeError "'NoneType' object is not subscriptable")
  end.

(** [info.get(k, default)] *)
Definition get (i : info) (k : string) (default : Py.value) : Py.outcome Py.value :=
  match i with
  | Some d => Py.Ok (Py.dict_get d k default)
  | None => Py.Raise (Py.AttributeError "'NoneType' object has no attribute 'get'")
  end.

(** [k in info] *)
Definition contains (k : string) (i : info) : Py.outcome bool :=
  match i with
  | Some d => Py.Ok (Py.dict_contains k d)
  | None => Py.Raise (Py.TypeError "argument of type 'NoneType' is not iterable")
  end.

End YtDlp.

(** ** Streamlit widgets, as calls made on them *)

Module Streamlit.

Inductive call : Type :=
| BarProgress (numerator denominator : Z)
    (* progress_bar.progress(numerator / denominator) *)
| StatusText (text : string).
    (* status_text.text(text) *)

End Streamlit.

(** ** class YouTubeDownloader *)

Module YouTubeDownloader.

Import Py.

Record t : Type := mk { download_path : PathLib.Path }.

(** [__init__]: the directory is also created, which no operation below
    observes. *)
Definition init (download_path : string) : t := mk (PathLib.parse download_path).

(** [progress_hook]: the calls it makes on the widgets it was given
    ([progress_bar], [status_text]: whether one was given and not [None]).
    Whatever raises does so before the first call is made. *)
Definition progress_hook (self : t) (d : dict) (progress_bar status_text : bool)
  : outcome (list Streamlit.call) :=
  status <- dict_item d "status" ;;
  if eq_str status "downloading"
  then (shown <- (if progress_bar && dict_contains "downloaded_bytes" d
                                  && dict_contains "total_bytes" d
                  then (downloaded <- dict_item d "downloaded_bytes" ;;
                        total <- dict_item d "total_bytes" ;;
                        percent <- truediv downloaded total ;;
                        Ok [Streamlit.BarProgress (fst percent) (snd percent)])
                  else Ok []) ;;
        if status_text
        then Ok (shown ++ [Streamlit.StatusText
                             ("Downloading: " ++ str (dict_get d "_percent_str" (VStr "N/A"))
                              ++ " at " ++ str (dict_get d "_speed_str" (VStr "N/A")))])%list
        else Ok shown)
  else (status' <- dict_item d "status" ;;
        if eq_str status' "finished"
        then (if status_text
              then Ok [Streamlit.StatusText "Download complete, processing..."]
              else Ok [])
        else Ok []).

(** The format expression of lines 29 and 68. *)
Definition format_selector (quality : string) : string :=
  if String.eqb quality "best"
  then "bestvideo+bestaudio/best"
  else "bestvideo[height<=" ++ str_slice_to (-1) quality ++ "]+bestaudio/best".

Definition video_opts (self : t) (quality : string) : YtDlp.options :=
  {| YtDlp.format := Some (format_selector quality);
     YtDlp.outtmpl := Some (PathLib.to_str (PathLib.div (download_path self) "%(title)s.%(ext)s"));
     YtDlp.merge_output_format := Some "mp4";
     YtDlp.postprocessors := [];
     YtDlp.ignoreerrors := false;
     YtDlp.quiet := false;
     YtDlp.extract_flat := false |}.

Definition download_result : Type := bool * value * option string.

Definition download_video (yt : YtDlp.api) (self : t) (url quality : string)
  : outcome download_result :=
  let ydl_opts := video_opts self quality in
  try_except
    (info <- YtDlp.extract_info yt ydl_opts url true ;;
     filename <- YtDlp.prepare_filename yt ydl_opts info ;;
     title <- YtDlp.item info "title" ;;
     Ok (true, title, Some filename))
    (fun e => Ok (false, VStr (exc_str e), None)).

Definition audio_opts (self : t) (format : string) : YtDlp.options :=
  {| YtDlp.format := Some "bestaudio/best";
     YtDlp.outtmpl := Some (PathLib.to_str (PathLib.div (download_path self) "%(title)s.%(ext)s"));
     YtDlp.merge_output_format := None;
     YtDlp.postprocessors := [YtDlp.mkPostprocessor "FFmpegExtractAudio" format "192"];
     YtDlp.ignoreerrors := false;
     YtDlp.quiet := false;
     YtDlp.extract_flat := false |}.

Definition download_audio (yt : YtDlp.api) (self : t) (url format : string)
  : outcome download_result :=
  let ydl_opts := audio_opts self format in
  try_except
    (info <- YtDlp.extract_info yt ydl_opts url true ;;
     title <- YtDlp.item info "title" ;;
     let filename := PathLib.to_str (PathLib.div (download_path self) (str title ++ "." ++ format)) in
     title' <- YtDlp.item info "title" ;;
     Ok (true, title', Some filename))
    (fun e => Ok (false, VStr (exc_str e), None)).

Definition playlist_outtmpl (self : t) : string :=
  PathLib.to_str (PathLib.div (download_path self)
                    "%(playlist)s/%(playlist_index)s - %(title)s.%(ext)s").

Definition playlist_opts (self : t) (download_type quality audio_format : string)
  : YtDlp.options :=
  if String.eqb download_type "video"
  then {| YtDlp.format := Some (format_selector quality);
          YtDlp.outtmpl := Some (playlist_outtmpl self);
          YtDlp.merge_output_format := Some "mp4";
          YtDlp.postprocessors := [];
          YtDlp.ignoreerrors := true;
          YtDlp.quiet := false;
          YtDlp.extract_flat := false |}
  else {| YtDlp.format := Some "bestaudio/best";
          YtDlp.outtmpl := Some (playlist_outtmpl self);
          YtDlp.merge_output_format := None;
          YtDlp.postprocessors := [YtDlp.mkPostprocessor "FFmpegExtractAudio" audio_format "192"];
          YtDlp.ignoreerrors := true;
          YtDlp.quiet := false;
          YtDlp.extract_flat := false |}.

Definition playlist_result : Type := bool * value * Z * option string.

Definition download_playlist (yt : YtDlp.api) (self : t)
    (url download_type quality audio_format : string) : outcome playlist_result :=
  let ydl_opts := playlist_opts self download_type quality audio_format in
  try_except
    (info <- YtDlp.extract_info yt ydl_opts url true ;;
     playlist_title <- YtDlp.get info "title" (VStr "playlist") ;;
     entries <- YtDlp.get info "entries" (VList []) ;;
     video_count <- len entries ;;
     playlist_folder <- PathLib.div_value (download_path self) playlist_title ;;
     Ok (true, playlist_title, video_count, Some (PathLib.to_str playlist_folder)))
    (fun e => Ok (false, VStr (exc_str e), 0, None)).

Definition info_opts : YtDlp.options :=
  {| YtDlp.format := None;
     YtDlp.outtmpl := None;
     YtDlp.merge_output_format := None;
     YtDlp.postprocessors := [];
     YtDlp.ignoreerrors := false;
     YtDlp.quiet := true;
     YtDlp.extract_flat := false |}.

(** The dictionary [get_video_info] returns. *)
Record video_info : Type := mkVideoInfo {
  vi_title : value;
  vi_duration : string;
  vi_uploader : value;
  vi_views : value;
  vi_thumbnail : value;
  vi_description : value }.

(** The conditional expression of lines 111 and 112: the condition first,
    then one branch. *)
Definition description_field (info : YtDlp.info) : outcome value :=
  d <- YtDlp.get info "description" (VStr "") ;;
  n <- len d ;;
  if n >? 300
  then (d1 <- YtDlp.get info "description" (VStr "") ;;
        cut <- slice_to 300 d1 ;;
        add_str cut "...")
  else YtDlp.get info "description" (VStr "").

Definition get_video_info (yt : YtDlp.api) (self : t) (url : string)
  : outcome (option video_info) :=
  let ydl_opts := info_opts in
  try_except
    (info <- YtDlp.extract_info yt ydl_opts url false ;;
     d1 <- YtDlp.get info "duration" (VInt 0) ;;
     duration_min <- floordiv d1 60 ;;
     d2 <- YtDlp.get info "duration" (VInt 0) ;;
     duration_sec <- modulo d2 60 ;;
     title <- YtDlp.get info "title" VNone ;;
     let duration := str_of_int duration_min ++ ":" ++ format_0d 2 duration_sec in
     uploader <- YtDlp.get info "uploader" VNone ;;
     views <- YtDlp.get info "view_count" (VInt 0) ;;
     thumbnail <- YtDlp.get info "thumbnail" VNone ;;
     description <- description_field info ;;
     Ok (Some (mkVideoInfo title duration uploader views thumbnail description)))
    (fun e => Ok None).

Definition flat_opts : YtDlp.options :=
  {| YtDlp.format := None;
     YtDlp.outtmpl := None;
     YtDlp.merge_output_format := None;
     YtDlp.postprocessors := [];
     YtDlp.ignoreerrors := false;
     YtDlp.quiet := true;
     YtDlp.extract_flat := true |}.

Record video_preview : Type := mkPreview { vp_title : value; vp_duration : value }.

(** The dictionary [get_playlist_info] returns. *)
Record playlist_info : Type := mkPlaylistInfo {
  pi_title : value;
  pi_uploader : value;
  pi_video_count : Z;
  pi_videos : list video_preview }.

Definition preview_of (entry : value) : outcome video_preview :=
  title <- get_attr_get entry "title" ;;
  duration <- get_attr_get entry "duration" ;;
  Ok (mkPreview title duration).

Definition get_playlist_info (yt : YtDlp.api) (self : t) (url : string)
  : outcome (option playlist_info) :=
  let ydl_opts := flat_opts in
  try_except
    (info <- YtDlp.extract_info yt ydl_opts url false ;;
     has_entries <- YtDlp.contains "entries" info ;;
     if has_entries
     then (title <- YtDlp.get info "title" VNone ;;
           uploader <- YtDlp.get info "uploader" VNone ;;
           entries <- YtDlp.item info "entries" ;;
           video_count <- len entries ;;
           entries' <- YtDlp.item info "entries" ;;
           first <- slice_to 10 entries' ;;
           shown <- iter first ;;
           videos <- comprehension preview_of shown ;;
           Ok (Some (mkPlaylistInfo title uploader video_count videos)))
     else Ok None)
    (fun e => Ok None).

(** The folder as the walk of line 145 finds it. Line 143 has created the
    archive by then: an archive that lies in the folder is one of its
    regular files, whatever was at that place before. *)
Definition walked (os : OS.api) (zip_path folder : PathLib.Path) (tree : FS.node) : FS.node :=
  match OS.inside os zip_path folder with
  | Some rel => FS.put rel (FS.File (OS.archive_bytes os)) tree
  | None => tree
  end.

(** [create_zip], given the directory tree that [folder_path] names when
    the operation is called. Nothing is caught: what opening, storing or
    closing raises leaves the operation, and an exception of the closing
    takes the place of one raised in the block. The result is the returned
    path and the archive written there. *)
Definition create_zip (os : OS.api) (self : t) (tree : FS.node)
    (folder_path zip_name : string) : outcome (string * ZipFile.t) :=
  let zip_path := PathLib.div (download_path self) (zip_name ++ ".zip") in
  _ <- OS.open_archive os zip_path ;;
  let folder := PathLib.parse folder_path in
  match for_each
          (fun zipf file =>
             if FS.is_file (snd file)
             then (arc <- PathLib.relative_to (fst file) (PathLib.parent folder) ;;
                   ZipFile.write os zipf (fst file) (snd file) arc)
             else Ok zipf)
          (FS.rglob_star folder (walked os zip_path folder tree))
          ZipFile.empty
  with
  | Ok zipf => _ <- OS.close_archive os ;; Ok (PathLib.to_str zip_path, zipf)
  | Raise e =>
      match OS.close_archive os with
      | Ok _ => Raise e
      | Raise e' => Raise e'
      end
  end.

End YouTubeDownloader.

(** ** main: what the preview writes *)

Module App.

Import Py.

(** The text of line 268, [f"**Views:** {info['views']:,}"]. *)
Definition views_line (info : YouTubeDownloader.video_info) : outcome string :=
  views <- format_comma (YouTubeDownloader.vi_views info) ;;
  Ok ("**Views:** " ++ views).

(** The text that the body of the loop of lines 285 to 292 writes for the
    video numbered [i]. *)
Definition preview_line (i : Z) (video : YouTubeDownloader.video_preview) : outcome string :=
  let duration := YouTubeDownloader.vp_duration video in
  if truthy duration
  then (mins <- floordiv duration 60 ;;
        secs <- modulo duration 60 ;;
        Ok (str_of_int i ++ ". " ++ str (YouTubeDownloader.vp_title video)
            ++ " (" ++ str_of_int mins ++ ":" ++ format_0d 2 secs ++ ")"))
  else Ok (str_of_int i ++ ". " ++ str (YouTubeDownloader.vp_title video)).

(** The loop of lines 285 to 292 over [enumerate(videos, i)]: the texts
    written, and the exception that ended the loop if one did. *)
Fixpoint write_preview (i : Z) (videos : list YouTubeDownloader.video_preview)
    (written : list string) : list string * option exception :=
  match videos with
  | [] => (written, None)
  | video :: rest =>
      match preview_line i video with
      | Ok text => write_preview (i + 1) rest (written ++ [text])%list
      | Raise e => (written, Some e)
      end
  end.

(** [for i, video in enumerate(info['videos'], 1): ...] *)
Definition preview_lines (info : YouTubeDownloader.playlist_info)
  : list string * option exception :=
  write_preview 1 (YouTubeDownloader.pi_videos info) [].

End App.

(** ** What the specification says, in its own words *)

Module Spec.

Definition digit (k : Z) : ascii := ascii_of_nat (48 + Z.to_nat k).

(** "two-digit zero-padded": the tens digit, then the units digit. *)
Definition two_digit (k : Z) : string :=
  String (digit (k / 10)) (String (digit (k mod 10)) "").

(** "floor(S/60) + : + two-digit zero-padded S mod 60" *)
Definition duration_text (S : Z) : string :=
  Py.str_of_int (S / 60) ++ ":" ++ two_digit (S mod 60).

(** "best available video+audio, falling back to best combined stream" *)
Definition unrestricted_format : string := "bestvideo+bestaudio/best".

(** "best video with height at most N, plus best audio, falling back to
    best combined stream", with the bound as it is written. *)
Definition height_bounded_format (bound : string) : string :=
  "bestvideo[height<=" ++ bound ++ "]+bestaudio/best".

(** A path is written under a directory: same root, and the directory's
    components come first. This compares the paths as they are written, not
    where they lead: a path written under a directory can still lead out of
    it through [..] or a link. *)
Definition under (base p : PathLib.Path) : Prop :=
  PathLib.root p = PathLib.root base /\
  exists rest, PathLib.parts p = (PathLib.parts base ++ rest)%list.

(** The entries of a collection that are there: a failed item is [None]. *)
Definition succeeded (entries : list Py.value) : nat :=
  List.length (filter (fun e => match e with Py.VNone => false | _ => true end) entries).

(** The node that a relative path leads to, through directories only. *)
Inductive at_path : FS.node -> list string -> FS.node -> Prop :=
| at_entry : forall entries name n,
    In (name, n) entries -> at_path (FS.Dir entries) [name] n
| at_below : forall entries name sub rel n,
    In (name, sub) entries -> at_path sub rel n ->
    at_path (FS.Dir entries) (name :: rel) n.

(** How many regular files a tree holds, and how many symbolic links to
    regular files. *)
Fixpoint regular_files (n : FS.node) : nat :=
  match n with
  | FS.File _ => 1
  | FS.Dir entries => list_sum (map (fun e => regular_files (snd e)) entries)
  | _ => 0
  end.

Fixpoint file_links (n : FS.node) : nat :=
  match n with
  | FS.Symlink (FS.ToFile _) => 1
  | FS.Dir entries => list_sum (map (fun e => file_links (snd e)) entries)
  | _ => 0
  end.

(** "The underlying library raises" during [download_video]: the query
    raises, or the query returns and asking for the file name raises. *)
Inductive video_raises (yt : YtDlp.api) (self : YouTubeDownloader.t)
    (url quality : string) (e : Py.exception) : Prop :=
| video_query_raises :
    YtDlp.extract_info yt (YouTubeDownloader.video_opts self quality) url true = Py.Raise e ->
    video_raises yt self url quality e
| video_filename_raises : forall info,
    YtDlp.extract_info yt (YouTubeDownloader.video_opts self quality) url true = Py.Ok info ->
    YtDlp.prepare_filename yt (YouTubeDownloader.video_opts self quality) info = Py.Raise e ->
    video_raises yt self url quality e.

(** "The underlying library raises" during [download_audio], which only
    queries. *)
Definition audio_raises (yt : YtDlp.api) (self : YouTubeDownloader.t)
    (url format : string) (e : Py.exception) : Prop :=
  YtDlp.extract_info yt (YouTubeDownloader.audio_opts self format) url true = Py.Raise e.

(** The title and duration shown for one entry of a collection. *)
Definition preview (entry : Py.dict) : YouTubeDownloader.video_preview :=
  YouTubeDownloader.mkPreview (Py.dict_get entry "title" Py.VNone)
                              (Py.dict_get entry "duration" Py.VNone).

(** The text begins with the path separator. *)
Definition begins_with_slash (s : string) : bool :=
  match s with
  | String c _ => Ascii.eqb c PathLib.slash
  | EmptyString => false
  end.

(** The entries that [is_file] accepts, among those the walk lists. *)
Definition accepted (tree : FS.node) : list (list string * FS.node) :=
  filter (fun r => FS.is_file (snd r)) (FS.walk tree).

Definition one_if (b : bool) : nat := if b then 1%nat else 0%nat.

(** The bytes of a node that [is_file] accepts: its own, or those of the
    regular file it is a link to. *)
Inductive holds : FS.node -> FS.bytes -> Prop :=
| holds_file : forall data, holds (FS.File data) data
| holds_link : forall data, holds (FS.Symlink (FS.ToFile data)) data.

(** The line shown for the video at position [k] (from 0) of a preview:
    its number from 1, its title, and its duration in minutes and seconds
    when it has one that is not zero. *)
Definition preview_text (k : nat) (video : YouTubeDownloader.video_preview) : string :=
  Py.str_of_int (Z.of_nat k + 1) ++ ". " ++ Py.str (YouTubeDownloader.vp_title video)
  ++ match YouTubeDownloader.vp_duration video with
     | Py.VInt seconds =>
         if seconds =? 0 then "" else " (" ++ duration_text seconds ++ ")"
     | _ => ""
     end.

(** The text without its commas. *)
Definition strip_commas (s : string) : string :=
  string_of_list_ascii (filter Py.not_comma (list_ascii_of_string s)).

(** The folder that entries of the archive are stored under: the name of
    the source folder, or nothing for a path without components. *)
Definition top_level (folder : PathLib.Path) : list string :=
  match PathLib.parts folder with
  | [] => []
  | _ => [PathLib.name folder]
  end.

(** The entry written for an accepted node, for any source folder. *)
Definition entry_under (top : list string) (r : list string * FS.node) : ZipFile.entry :=
  ZipFile.mkEntry (PathLib.mkPath "" (top ++ fst r)) (FS.read_bytes (snd r)).

(** No directory of the tree holds two entries of one name. *)
Inductive distinct_names : FS.node -> Prop :=
| distinct_file : forall data, distinct_names (FS.File data)
| distinct_dir : forall entries,
    NoDup (map fst entries) ->
    Forall (fun e => distinct_names (snd e)) entries ->
    distinct_names (FS.Dir entries)
| distinct_link : forall target, distinct_names (FS.Symlink target)
| distinct_special : distinct_names FS.Special.

(** A component as parsing leaves it: not empty, not the dot, without
    separator. *)
Definition component (c : string) : Prop :=
  PathLib.kept_component c = true /\ Py.str_contains PathLib.slash c = false.

(** A path as parsing leaves it. *)
Definition normal (p : PathLib.Path) : Prop :=
  (PathLib.root p = "" \/ PathLib.root p = "/" \/ PathLib.root p = "//") /\
  Forall component (PathLib.parts p).

End Spec.

(** ** A library and inputs to run the facade on *)

Module Sample.

Import Py.

Definition self : YouTubeDownloader.t := YouTubeDownloader.init "downloads".

(** A library whose every query raises the given exception. *)
Definition failing (e : exception) : YtDlp.api :=
  YtDlp.mkApi (fun _ _ _ => Raise e) (fun _ _ => Raise e).

(** A library that raises when asked for a video (options that name a
    container to merge into) and returns the given info otherwise. *)
Definition failing_for_video (e : exception) (i : YtDlp.info) : YtDlp.api :=
  YtDlp.mkApi (fun opts _ _ => match YtDlp.merge_output_format opts with
                               | Some _ => Raise e
                               | None => Ok i
                               end)
              (fun _ _ => Raise e).

(** A library that raises whatever it is asked, the text of the exception
    being the format expression it was given. *)
Definition echoing_format : YtDlp.api :=
  YtDlp.mkApi (fun opts _ _ => Raise (mkExc "DownloadError"
                                        (match YtDlp.format opts with
                                         | Some f => f
                                         | None => ""
                                         end)))
              (fun _ _ => Raise (mkExc "DownloadError" "")).

(** A library that returns the given info and reports the given file name. *)
Definition returning (i : YtDlp.info) (filename : string) : YtDlp.api :=
  YtDlp.mkApi (fun _ _ _ => Ok i) (fun _ _ => Ok filename).

Definition url : string := "https://www.youtube.com/watch?v=abc".

Definition video (title : string) (seconds : Z) (description : string) : dict :=
  [("title", VStr title); ("duration", VInt seconds); ("uploader", VStr "someone");
   ("view_count", VInt 1000); ("thumbnail", VNone); ("description", VStr description)].

Definition flat_entry (k : nat) : value :=
  VDict [("title", VStr ("item " ++ str_of_int (Z.of_nat k))); ("duration", VInt 100)].

Definition playlist (title : string) (entries : list value) : dict :=
  [("title", VStr title); ("uploader", VStr "someone"); ("entries", VList entries)].

Definition payload : FS.bytes := [Byte.x01; Byte.x02].

(** A system on which every file operation succeeds and the archive lies
    outside the folder. *)
Definition os : OS.api :=
  OS.mkApi (fun _ => Ok tt) (fun _ _ => None) [] (fun _ => None) (Ok tt).

(** A system on which the archive lies in the folder, at [rel], and holds
    [flushed] when it is read. *)
Definition os_inside (rel : list string) (flushed : FS.bytes) : OS.api :=
  OS.mkApi (fun _ => Ok tt) (fun _ _ => Some rel) flushed (fun _ => None) (Ok tt).

(** A system that cannot create the archive. *)
Definition os_closed (e : exception) : OS.api :=
  OS.mkApi (fun _ => Raise e) (fun _ _ => None) [] (fun _ => None) (Ok tt).

(** A playlist folder: two downloaded items, one in a subdirectory, an
    empty subdirectory, a pipe, and links of every kind. *)
Definition tree : FS.node :=
  FS.Dir [("1 - a.mp3", FS.File payload);
          ("extra", FS.Dir [("2 - b.mp3", FS.File [Byte.x03])]);
          ("empty", FS.Dir []);
          ("pipe", FS.Special);
          ("gone", FS.Symlink FS.Dangling);
          ("other", FS.Symlink FS.ToDir)].

Definition tree_with_link : FS.node :=
  FS.Dir [("1 - a.mp3", FS.File payload);
          ("latest.mp3", FS.Symlink (FS.ToFile payload))].

End Sample.

(** * Proofs *)

Import Py YouTubeDownloader.

(** ** Strings and slices *)

Lemma str_length_app (a b : string) :
  String.length (a ++ b) = (String.length a + String.length b)%nat.
Proof. induction a as [|c a IH]; simpl; [reflexivity | now rewrite IH]. Qed.

Lemma str_take_app (a b : string) : str_take (String.length a) (a ++ b) = a.
Proof.
  unfold str_take. induction a as [|c a IH]; simpl.
  - destruct b; reflexivity.
  - now rewrite IH.
Qed.

Lemma str_take_all (n : nat) (s : string) :
  (String.length s <= n)%nat -> str_take n s = s.
Proof.
  unfold str_take. revert n. induction s as [|c s IH]; intros n Hn.
  - destruct n; reflexivity.
  - destruct n as [|n]; simpl in *; [lia |]. rewrite IH by lia. reflexivity.
Qed.

(** A cut at [n] splits the string into a head of length [n] and a tail. *)
Lemma str_take_split (n : nat) (s : string) :
  (n <= String.length s)%nat ->
  exists tail, s = str_take n s ++ tail /\ String.length (str_take n s) = n.
Proof.
  unfold str_take. revert n. induction s as [|c s IH]; intros n Hn.
  - destruct n; simpl in *; [| lia]. exists "". split; reflexivity.
  - destruct n as [|n]; simpl in *.
    + exists (String c s). split; reflexivity.
    + destruct (IH n) as [tail [Hs Hl]]; [lia |].
      exists tail. split; [now rewrite <- Hs | now rewrite Hl].
Qed.

(** [s[:-1]] removes the last character. *)
Lemma str_slice_drop_last (a : string) (c : ascii) :
  str_slice_to (-1) (a ++ String c "") = a.
Proof.
  unfold str_slice_to. simpl (-1 <? 0). cbv iota.
  rewrite str_length_app. simpl String.length.
  replace (Z.to_nat (Z.of_nat (String.length a + 1) + -1)) with (String.length a) by lia.
  apply str_take_app.
Qed.

Lemma firstn_slice {A : Type} (k : nat) (l : list A) :
  list_slice_to (Z.of_nat k) l = firstn k l.
Proof.
  unfold list_slice_to. destruct (Z.ltb_spec (Z.of_nat k) 0) as [E | E]; [lia |].
  now rewrite Nat2Z.id.
Qed.

(** No selector that ends in [p] is the selector [best]. *)
Lemma digits_p_not_best (digits : string) : String.eqb (digits ++ "p") "best" = false.
Proof.
  apply String.eqb_neq. intro H.
  destruct digits as [|a [|b [|c [|d [|e rest]]]]]; simpl in H; discriminate.
Qed.

(** ** Integers as text *)

Lemma two_digit_table :
  forallb (fun k => String.eqb (format_0d 2 k) (Spec.two_digit k))
          (map Z.of_nat (seq 0 100)) = true.
Proof. vm_compute. reflexivity. Qed.

(** The format [02d] writes a number below 100 as its two digits. *)
Lemma format_0d_two_digit (k : Z) : 0 <= k < 100 -> format_0d 2 k = Spec.two_digit k.
Proof.
  intros Hk. pose proof two_digit_table as T.
  rewrite forallb_forall in T. apply String.eqb_eq, T.
  apply in_map_iff. exists (Z.to_nat k). split; [lia |].
  apply in_seq. lia.
Qed.

(** ** The exception monad *)

Lemma bind_ok {A B : Type} (a : A) (k : A -> outcome B) : (x <- Ok a ;; k x) = k a.
Proof. reflexivity. Qed.

Lemma bind_raise {A B : Type} (e : exception) (k : A -> outcome B) :
  (x <- Raise e ;; k x) = Raise e.
Proof. reflexivity. Qed.

Lemma bind_inv {A B : Type} (m : outcome A) (k : A -> outcome B) (b : B) :
  (x <- m ;; k x) = Ok b -> exists a, m = Ok a /\ k a = Ok b.
Proof. destruct m as [a | e]; simpl; intros H; [eauto | discriminate]. Qed.

Lemma try_except_ok {A : Type} (a : A) (h : exception -> outcome A) :
  try_except (Ok a) h = Ok a.
Proof. reflexivity. Qed.

(** A handler that returns never lets the exception through. *)
Lemma try_except_total {A : Type} (m : outcome A) (h : exception -> A) :
  exists a, try_except m (fun e => Ok (h e)) = Ok a.
Proof. destruct m; simpl; eauto. Qed.

(** ** Quality selectors *)

(** C3. [download_video], and [download_playlist] for videos, hand the
    library options whose format expression is the translation of the
    selector: the unrestricted expression for "best", and for digits
    followed by "p" the height-bounded expression whose bound is the digits
    ("720p" bounds the height at 720). So what the library does with
    options of that format is what the operation reports: if it raises on
    them, the operation reports that failure. *)
Theorem quality_selector_translation (yt : YtDlp.api) (self : YouTubeDownloader.t)
    (url digits audio_format : string) (e_best e_bound : exception) :
  (forall opts, YtDlp.format opts = Some Spec.unrestricted_format ->
                YtDlp.extract_info yt opts url true = Raise e_best) ->
  (forall opts, YtDlp.format opts = Some (Spec.height_bounded_format digits) ->
                YtDlp.extract_info yt opts url true = Raise e_bound) ->
  download_video yt self url "best" = Ok (false, VStr (exc_str e_best), None) /\
  download_playlist yt self url "video" "best" audio_format
    = Ok (false, VStr (exc_str e_best), 0, None) /\
  download_video yt self url (digits ++ "p") = Ok (false, VStr (exc_str e_bound), None) /\
  download_playlist yt self url "video" (digits ++ "p") audio_format
    = Ok (false, VStr (exc_str e_bound), 0, None) /\
  YtDlp.format (video_opts self "best") = Some Spec.unrestricted_format /\
  YtDlp.format (playlist_opts self "video" "best" audio_format)
    = Some Spec.unrestricted_format /\
  YtDlp.format (video_opts self (digits ++ "p"))
    = Some (Spec.height_bounded_format digits) /\
  YtDlp.format (playlist_opts self "video" (digits ++ "p") audio_format)
    = Some (Spec.height_bounded_format digits) /\
  YtDlp.format (video_opts self "720p") = Some "bestvideo[height<=720]+bestaudio/best".
Proof.
  intros Hbest Hbound.
  assert (H : format_selector (digits ++ "p") = Spec.height_bounded_format digits).
  { unfold format_selector. rewrite digits_p_not_best, str_slice_drop_last. reflexivity. }
  assert (Hv : YtDlp.format (video_opts self (digits ++ "p"))
               = Some (Spec.height_bounded_format digits)).
  { simpl. now rewrite H. }
  assert (Hp : YtDlp.format (playlist_opts self "video" (digits ++ "p") audio_format)
               = Some (Spec.height_bounded_format digits)).
  { simpl. now rewrite H. }
  repeat split; try assumption.
  - unfold download_video. now rewrite (Hbest (video_opts self "best") eq_refl).
  - unfold download_playlist.
    now rewrite (Hbest (playlist_opts self "video" "best" audio_format) eq_refl).
  - unfold download_video. now rewrite (Hbound _ Hv).
  - unfold download_playlist. now rewrite (Hbound _ Hp).
Qed.

Lemma quality_selector_translation_witness :
  download_video Sample.echoing_format Sample.self Sample.url "best"
    = Ok (false, VStr "bestvideo+bestaudio/best", None) /\
  download_playlist Sample.echoing_format Sample.self Sample.url "video" "best" "mp3"
    = Ok (false, VStr "bestvideo+bestaudio/best", 0, None) /\
  download_video Sample.echoing_format Sample.self Sample.url "720p"
    = Ok (false, VStr "bestvideo[height<=720]+bestaudio/best", None) /\
  download_playlist Sample.echoing_format Sample.self Sample.url "video" "720p" "mp3"
    = Ok (false, VStr "bestvideo[height<=720]+bestaudio/best", 0, None).
Proof.
  destruct (quality_selector_translation Sample.echoing_format Sample.self Sample.url
              "720" "mp3"
              (mkExc "DownloadError" "bestvideo+bestaudio/best")
              (mkExc "DownloadError" "bestvideo[height<=720]+bestaudio/best"))
    as [H1 [H2 [H3 [H4 _]]]].
  - intros opts H. simpl. now rewrite H.
  - intros opts H. simpl. now rewrite H.
  - repeat split; assumption.
Defined.

(** ** Metadata of one item *)

(** What [get_video_info] returns once the query has returned a dictionary
    whose duration is an integer: every failure left is one of the
    description. *)
Lemma get_video_info_run (yt : YtDlp.api) (self : YouTubeDownloader.t) (url : string)
    (d : dict) (S : Z) :
  YtDlp.extract_info yt info_opts url false = Ok (Some d) ->
  dict_get d "duration" (VInt 0) = VInt S ->
  get_video_info yt self url =
    match description_field (Some d) with
    | Ok description =>
        Ok (Some (mkVideoInfo (dict_get d "title" VNone)
                              (str_of_int (S / 60) ++ ":" ++ format_0d 2 (S mod 60))
                              (dict_get d "uploader" VNone)
                              (dict_get d "view_count" (VInt 0))
                              (dict_get d "thumbnail" VNone)
                              description))
    | Raise _ => Ok None
    end.
Proof.
  intros Hq Hd. unfold get_video_info. rewrite Hq. cbn [bind YtDlp.get].
  rewrite Hd. cbn [bind floordiv modulo].
  destruct (description_field (Some d)); reflexivity.
Qed.

(** C4. For a non-negative integer duration of S seconds [get_video_info]
    returns the duration text floor(S/60), a colon, and S mod 60 as two
    digits with a leading zero. *)
Theorem duration_formatting (yt : YtDlp.api) (self : YouTubeDownloader.t) (url : string)
    (d : dict) (S : Z) (description : value) :
  YtDlp.extract_info yt info_opts url false = Ok (Some d) ->
  dict_get d "duration" (VInt 0) = VInt S ->
  0 <= S ->
  description_field (Some d) = Ok description ->
  exists r, get_video_info yt self url = Ok (Some r) /\
            vi_duration r = Spec.duration_text S.
Proof.
  intros Hq Hd HS Hdesc.
  rewrite (get_video_info_run yt self url d S Hq Hd), Hdesc.
  eexists. split; [reflexivity |]. cbn [vi_duration]. unfold Spec.duration_text.
  rewrite format_0d_two_digit; [reflexivity |].
  pose proof (Z.mod_pos_bound S 60). lia.
Qed.

Lemma duration_formatting_witness :
  exists r, get_video_info (Sample.returning (Some (Sample.video "t" 125 "about")) "f")
                           Sample.self Sample.url = Ok (Some r) /\
            vi_duration r = "2:05".
Proof.
  apply (duration_formatting _ _ _ (Sample.video "t" 125 "about") 125 (VStr "about"));
    [reflexivity | reflexivity | lia | reflexivity].
Defined.

(** The three durations the specification names. *)
Example duration_examples :
  Spec.duration_text 125 = "2:05" /\ Spec.duration_text 59 = "0:59" /\
  Spec.duration_text 0 = "0:00".
Proof. repeat split. Qed.

(** The description of a dictionary whose description is a string. *)
Lemma description_field_str (d : dict) (s : string) :
  dict_get d "description" (VStr "") = VStr s ->
  description_field (Some d) =
    Ok (VStr (if Z.of_nat (String.length s) >? 300 then str_take 300 s ++ "..." else s)).
Proof.
  intros H. unfold description_field. cbn [YtDlp.get bind].
  rewrite H. cbn [len bind].
  destruct (Z.of_nat (String.length s) >? 300); reflexivity.
Qed.

(** C5. A description of at most 300 characters, 300 included, is returned
    unchanged; a longer one is returned as its first 300 characters followed
    by an ellipsis. *)
Theorem description_truncation (yt : YtDlp.api) (self : YouTubeDownloader.t) (url : string)
    (d : dict) (S : Z) (s : string) :
  YtDlp.extract_info yt info_opts url false = Ok (Some d) ->
  dict_get d "duration" (VInt 0) = VInt S ->
  dict_get d "description" (VStr "") = VStr s ->
  exists r, get_video_info yt self url = Ok (Some r) /\
    ((String.length s <= 300)%nat -> vi_description r = VStr s) /\
    ((300 < String.length s)%nat ->
       exists head tail, s = head ++ tail /\ String.length head = 300%nat /\
                         vi_description r = VStr (head ++ "...")).
Proof.
  intros Hq Hd Hs.
  rewrite (get_video_info_run yt self url d S Hq Hd), (description_field_str d s Hs).
  eexists. split; [reflexivity |]. cbn [vi_description]. split; intros Hlen.
  - destruct (Z.gtb_spec (Z.of_nat (String.length s)) 300) as [E | E]; [lia | reflexivity].
  - destruct (Z.gtb_spec (Z.of_nat (String.length s)) 300) as [E | E]; [| lia].
    destruct (str_take_split 300 s) as [tail [Hsplit Hl]]; [lia |].
    exists (str_take 300 s), tail. auto.
Qed.

Lemma description_truncation_witness :
  exists r, get_video_info (Sample.returning
                              (Some (Sample.video "t" 59 (str_repeat 301 "x"))) "f")
                           Sample.self Sample.url = Ok (Some r) /\
    ((String.length (str_repeat 301 "x") <= 300)%nat ->
       vi_description r = VStr (str_repeat 301 "x")) /\
    ((300 < String.length (str_repeat 301 "x"))%nat ->
       exists head tail, str_repeat 301 "x" = head ++ tail /\
                         String.length head = 300%nat /\
                         vi_description r = VStr (head ++ "...")).
Proof.
  apply (description_truncation _ _ _ (Sample.video "t" 59 (str_repeat 301 "x")) 59);
    reflexivity.
Defined.

(** ** Failures of the library *)

(** The claim as the specification words it, with a message that is never
    empty, fails: the message is [str(e)], and an exception raised without
    arguments (a failed [assert], say) has the empty text. *)
Lemma download_message_can_be_empty :
  ~ (forall yt self url quality e,
       Spec.video_raises yt self url quality e ->
       exists message, message <> "" /\
         download_video yt self url quality = Ok (false, VStr message, None)).
Proof.
  intros claim.
  destruct (claim (Sample.failing (mkExc "AssertionError" "")) Sample.self Sample.url "720p"
                  (mkExc "AssertionError" "")) as [message [Hne Hrun]].
  - apply Spec.video_query_raises. reflexivity.
  - vm_compute in Hrun. injection Hrun as Hm. now apply Hne.
Qed.

(** C2. When the library raises during [download_video], the operation
    returns, and what it returns is: no success, the text of the exception
    as message, no output path. The same holds of [download_audio], each
    operation by itself. *)
Theorem download_failure_is_returned (yt : YtDlp.api) (self : YouTubeDownloader.t)
    (url quality format : string) (ev ea : exception) :
  (Spec.video_raises yt self url quality ev ->
   download_video yt self url quality = Ok (false, VStr (exc_str ev), None)) /\
  (Spec.audio_raises yt self url format ea ->
   download_audio yt self url format = Ok (false, VStr (exc_str ea), None)).
Proof.
  split.
  - intros Hv. unfold download_video. destruct Hv as [Hq | info Hq Hf].
    + now rewrite Hq.
    + rewrite Hq. cbn [bind]. now rewrite Hf.
  - intros Ha. unfold download_audio. red in Ha. now rewrite Ha.
Qed.

Lemma download_failure_is_returned_witness :
  download_video
    (Sample.failing_for_video (mkExc "DownloadError" "ERROR: Video unavailable")
                              (Some (Sample.video "t" 125 "")))
    Sample.self Sample.url "best"
    = Ok (false, VStr "ERROR: Video unavailable", None) /\
  download_audio (Sample.failing (mkExc "DownloadError" "ERROR: Video unavailable"))
                 Sample.self Sample.url "mp3"
    = Ok (false, VStr "ERROR: Video unavailable", None).
Proof.
  split.
  - apply (proj1 (download_failure_is_returned
                    (Sample.failing_for_video
                       (mkExc "DownloadError" "ERROR: Video unavailable")
                       (Some (Sample.video "t" 125 "")))
                    Sample.self Sample.url "best" "mp3"
                    (mkExc "DownloadError" "ERROR: Video unavailable")
                    (mkExc "DownloadError" "ERROR: Video unavailable"))).
    apply Spec.video_query_raises. reflexivity.
  - apply (proj2 (download_failure_is_returned
                    (Sample.failing (mkExc "DownloadError" "ERROR: Video unavailable"))
                    Sample.self Sample.url "best" "mp3"
                    (mkExc "DownloadError" "ERROR: Video unavailable")
                    (mkExc "DownloadError" "ERROR: Video unavailable"))).
    reflexivity.
Defined.

(** Whatever the library does, both downloads return a result. *)
Lemma downloads_always_return (yt : YtDlp.api) (self : YouTubeDownloader.t)
    (url quality format : string) :
  (exists r, download_video yt self url quality = Ok r) /\
  (exists r, download_audio yt self url format = Ok r).
Proof. split; apply try_except_total. Qed.

(** C9. When the metadata query raises, [get_video_info] returns [None]:
    the exception does not leave the operation and nothing of it is in the
    result. *)
Theorem video_info_failure_is_not_found (yt : YtDlp.api) (self : YouTubeDownloader.t)
    (url : string) (e : exception) :
  YtDlp.extract_info yt info_opts url false = Raise e ->
  get_video_info yt self url = Ok None.
Proof. intros Hq. unfold get_video_info. now rewrite Hq. Qed.

Lemma video_info_failure_is_not_found_witness :
  get_video_info (Sample.failing (mkExc "DownloadError" "ERROR: Private video"))
                 Sample.self Sample.url = Ok None.
Proof.
  apply (video_info_failure_is_not_found _ _ _ (mkExc "DownloadError" "ERROR: Private video")).
  reflexivity.
Defined.

(** ** Metadata of a collection *)

(** C10. [get_playlist_info] returns [None] when the query raises, and also
    when the query returns a dictionary without the key [entries]. *)
Theorem playlist_info_not_found (yt : YtDlp.api) (self : YouTubeDownloader.t) (url : string) :
  (exists e, YtDlp.extract_info yt flat_opts url false = Raise e) \/
  (exists d, YtDlp.extract_info yt flat_opts url false = Ok (Some d) /\
             dict_lookup "entries" d = None) ->
  get_playlist_info yt self url = Ok None.
Proof.
  intros [[e Hq] | [d [Hq Hd]]]; unfold get_playlist_info; rewrite Hq.
  - reflexivity.
  - cbn [bind YtDlp.contains]. unfold dict_contains. now rewrite Hd.
Qed.

Lemma playlist_info_not_found_witness :
  get_playlist_info (Sample.returning (Some (Sample.video "one item" 125 "")) "f")
                    Sample.self Sample.url = Ok None /\
  get_playlist_info (Sample.failing (mkExc "DownloadError" "ERROR: no such list"))
                    Sample.self Sample.url = Ok None.
Proof.
  split; apply playlist_info_not_found.
  - right. exists (Sample.video "one item" 125 ""). split; reflexivity.
  - left. exists (mkExc "DownloadError" "ERROR: no such list"). reflexivity.
Defined.

Lemma comprehension_dicts (shown : list dict) :
  comprehension preview_of (map VDict shown) = Ok (map Spec.preview shown).
Proof.
  induction shown as [|entry shown IH]; [reflexivity |].
  cbn [map comprehension]. rewrite IH. reflexivity.
Qed.

(** C6. For a collection, whose entries are dictionaries, the preview list
    of [get_playlist_info] has exactly min(10, total) items, the first ones,
    and so at most 10; the count reported next to it is the total. *)
Theorem playlist_preview_cap (yt : YtDlp.api) (self : YouTubeDownloader.t) (url : string)
    (d : dict) (entries : list value) (shown : list dict) :
  YtDlp.extract_info yt flat_opts url false = Ok (Some d) ->
  dict_lookup "entries" d = Some (VList entries) ->
  firstn 10 entries = map VDict shown ->
  exists r, get_playlist_info yt self url = Ok (Some r) /\
            pi_videos r = map Spec.preview shown /\
            List.length (pi_videos r) = Nat.min 10 (List.length entries) /\
            (List.length (pi_videos r) <= 10)%nat /\
            pi_video_count r = Z.of_nat (List.length entries).
Proof.
  intros Hq Hd Hshown. unfold get_playlist_info. rewrite Hq.
  cbn [bind YtDlp.contains YtDlp.get YtDlp.item]. unfold dict_contains, dict_item.
  rewrite Hd. cbn [bind len slice_to iter].
  change 10 with (Z.of_nat 10). rewrite firstn_slice, Hshown, comprehension_dicts.
  cbn [bind try_except]. eexists. split; [reflexivity |]. cbn [pi_videos pi_video_count].
  assert (Hlen : List.length (map Spec.preview shown) = Nat.min 10 (List.length entries)).
  { rewrite length_map, <- (length_map VDict), <- Hshown. apply length_firstn. }
  repeat split; [exact Hlen | rewrite Hlen; lia].
Qed.

Lemma playlist_preview_cap_witness :
  exists r,
    get_playlist_info
      (Sample.returning (Some (Sample.playlist "PL" (map Sample.flat_entry (seq 1 12)))) "f")
      Sample.self Sample.url = Ok (Some r) /\
    pi_videos r = map Spec.preview
                      [[("title", VStr "item 1"); ("duration", VInt 100)];
                       [("title", VStr "item 2"); ("duration", VInt 100)];
                       [("title", VStr "item 3"); ("duration", VInt 100)];
                       [("title", VStr "item 4"); ("duration", VInt 100)];
                       [("title", VStr "item 5"); ("duration", VInt 100)];
                       [("title", VStr "item 6"); ("duration", VInt 100)];
                       [("title", VStr "item 7"); ("duration", VInt 100)];
                       [("title", VStr "item 8"); ("duration", VInt 100)];
                       [("title", VStr "item 9"); ("duration", VInt 100)];
                       [("title", VStr "item 10"); ("duration", VInt 100)]] /\
    List.length (pi_videos r) = Nat.min 10 (List.length (map Sample.flat_entry (seq 1 12))) /\
    (List.length (pi_videos r) <= 10)%nat /\
    pi_video_count r = Z.of_nat (List.length (map Sample.flat_entry (seq 1 12))).
Proof.
  apply (playlist_preview_cap _ _ _
           (Sample.playlist "PL" (map Sample.flat_entry (seq 1 12)))
           (map Sample.flat_entry (seq 1 12))); reflexivity.
Defined.

Lemma comprehension_length {A B : Type} (f : A -> outcome B) (l : list A) :
  forall ys, comprehension f l = Ok ys -> List.length ys = List.length l.
Proof.
  induction l as [|x l IH]; intros ys H; simpl in H.
  - injection H as <-. reflexivity.
  - apply bind_inv in H as [y [_ H]]. apply bind_inv in H as [ys' [Hys H]].
    injection H as <-. simpl. f_equal. now apply IH.
Qed.

Lemma str_take_length (n : nat) (s : string) :
  String.length (str_take n s) = Nat.min n (String.length s).
Proof.
  unfold str_take. revert n. induction s as [|c s IH]; intros [|n]; simpl; try reflexivity.
  now rewrite IH.
Qed.

Lemma list_ascii_length (s : string) :
  List.length (list_ascii_of_string s) = String.length s.
Proof. induction s as [|c s IH]; simpl; [reflexivity | now rewrite IH]. Qed.

(** Whatever can be measured, cut at ten and looped over has
    min(10, length) elements. *)
Lemma first_ten_length (v first : value) (n : Z) (shown : list value) :
  len v = Ok n -> slice_to 10 v = Ok first -> iter first = Ok shown ->
  Z.of_nat (List.length shown) = Z.min 10 n.
Proof.
  intros Hn Hs Hi. destruct v; simpl in Hn, Hs; try discriminate;
    injection Hn as <-; injection Hs as <-; simpl in Hi; injection Hi as <-.
  - rewrite length_map, list_ascii_length. change (str_slice_to 10 s) with (str_take 10 s).
    rewrite str_take_length. lia.
  - change 10 with (Z.of_nat 10) at 1. rewrite firstn_slice, length_firstn. lia.
Qed.

(** Whatever the library returns, a preview that is returned has
    min(10, reported count) items. *)
Lemma playlist_preview_never_exceeds_cap (yt : YtDlp.api) (self : YouTubeDownloader.t)
    (url : string) (r : playlist_info) :
  get_playlist_info yt self url = Ok (Some r) ->
  Z.of_nat (List.length (pi_videos r)) = Z.min 10 (pi_video_count r).
Proof.
  unfold get_playlist_info, try_except. intros H.
  destruct (YtDlp.extract_info yt flat_opts url false) as [info | e]; [| discriminate].
  cbn [bind] in H.
  destruct (YtDlp.contains "entries" info) as [[|] | e]; cbn [bind] in H; try discriminate.
  destruct (YtDlp.get info "title" VNone) as [title | e]; cbn [bind] in H; [| discriminate].
  destruct (YtDlp.get info "uploader" VNone) as [uploader | e]; cbn [bind] in H;
    [| discriminate].
  destruct (YtDlp.item info "entries") as [entries | e]; cbn [bind] in H; [| discriminate].
  destruct (len entries) as [n | e] eqn:Hn; cbn [bind] in H; [| discriminate].
  destruct (slice_to 10 entries) as [first | e] eqn:Hs; cbn [bind] in H; [| discriminate].
  destruct (iter first) as [shown | e] eqn:Hi; cbn [bind] in H; [| discriminate].
  destruct (comprehension preview_of shown) as [videos | e] eqn:Hc; cbn [bind] in H;
    [| discriminate].
  injection H as <-. cbn [pi_videos pi_video_count].
  rewrite (comprehension_length _ _ _ Hc). now apply (first_ten_length entries first).
Qed.

(** ** Downloading a collection *)

(** C7. On a successful collection download the item count is the length of
    the entries list the library reports, whichever of the entries are
    failed items. *)
Theorem playlist_count_is_total (yt : YtDlp.api) (self : YouTubeDownloader.t)
    (url download_type quality audio_format : string)
    (d : dict) (entries : list value) (title : string) :
  YtDlp.extract_info yt (playlist_opts self download_type quality audio_format) url true
    = Ok (Some d) ->
  dict_get d "entries" (VList []) = VList entries ->
  dict_get d "title" (VStr "playlist") = VStr title ->
  download_playlist yt self url download_type quality audio_format
    = Ok (true, VStr title, Z.of_nat (List.length entries),
          Some (PathLib.to_str (PathLib.div (download_path self) title))).
Proof.
  intros Hq He Ht. unfold download_playlist. rewrite Hq.
  cbn [bind YtDlp.get]. rewrite Ht, He. reflexivity.
Qed.

Lemma playlist_count_is_total_witness :
  download_playlist
    (Sample.returning
       (Some (Sample.playlist "PL" [Sample.flat_entry 1; VNone; Sample.flat_entry 3])) "f")
    Sample.self Sample.url "audio" "best" "mp3"
    = Ok (true, VStr "PL", 3, Some "downloads/PL") /\
  Spec.succeeded [Sample.flat_entry 1; VNone; Sample.flat_entry 3] = 2%nat.
Proof.
  split; [| reflexivity].
  apply (playlist_count_is_total
           (Sample.returning
              (Some (Sample.playlist "PL" [Sample.flat_entry 1; VNone; Sample.flat_entry 3]))
              "f")
           Sample.self Sample.url "audio" "best" "mp3"
           (Sample.playlist "PL" [Sample.flat_entry 1; VNone; Sample.flat_entry 3])
           [Sample.flat_entry 1; VNone; Sample.flat_entry 3] "PL"); reflexivity.
Defined.

(** A download reported as successful always carries the length of what the
    library returned under [entries], zero when the key is absent. *)
Lemma playlist_success_count (yt : YtDlp.api) (self : YouTubeDownloader.t)
    (url download_type quality audio_format : string)
    (title : value) (count : Z) (folder : option string) :
  download_playlist yt self url download_type quality audio_format
    = Ok (true, title, count, folder) ->
  exists d, YtDlp.extract_info yt (playlist_opts self download_type quality audio_format)
                               url true = Ok (Some d) /\
            len (dict_get d "entries" (VList [])) = Ok count.
Proof.
  unfold download_playlist, try_except. intros H.
  destruct (YtDlp.extract_info yt _ url true) as [[d |] | e]; cbn [bind YtDlp.get] in H;
    try discriminate.
  exists d. split; [reflexivity |].
  destruct (len (dict_get d "entries" (VList []))) as [n | e]; cbn [bind] in H;
    [| discriminate].
  destruct (PathLib.div_value (download_path self) (dict_get d "title" (VStr "playlist")));
    cbn [bind] in H; [| discriminate].
  injection H as _ <- _. reflexivity.
Qed.

(** ** Paths *)

Lemma splitroot_relative (s : string) :
  Spec.begins_with_slash s = false -> PathLib.splitroot s = "".
Proof.
  destruct s as [|a [|b [|c s]]]; simpl; intros H; try reflexivity; now rewrite H.
Qed.

Lemma splitroot_absolute (s : string) :
  Spec.begins_with_slash s = true -> PathLib.splitroot s <> "".
Proof.
  destruct s as [|a [|b [|c s]]]; simpl; intros H; try discriminate; rewrite H.
  - discriminate.
  - destruct (Ascii.eqb b PathLib.slash); discriminate.
  - destruct (Ascii.eqb b PathLib.slash && negb (Ascii.eqb c PathLib.slash)); discriminate.
Qed.

(** Joining a relative text appends its components. *)
Lemma div_relative (p : PathLib.Path) (s : string) :
  Spec.begins_with_slash s = false ->
  PathLib.div p s
    = PathLib.mkPath (PathLib.root p)
                     (PathLib.parts p ++ PathLib.parts (PathLib.parse s)).
Proof.
  intros H. unfold PathLib.div. cbn [PathLib.parse PathLib.root PathLib.parts].
  now rewrite (splitroot_relative s H).
Qed.

(** Joining an absolute text forgets the left operand. *)
Lemma div_absolute (p : PathLib.Path) (s : string) :
  Spec.begins_with_slash s = true -> PathLib.div p s = PathLib.parse s.
Proof.
  intros H. unfold PathLib.div. cbn [PathLib.parse PathLib.root PathLib.parts].
  destruct (String.eqb_spec (PathLib.splitroot s) "") as [E | E]; [| reflexivity].
  now apply splitroot_absolute in H.
Qed.

Lemma split_slash_single (s : string) :
  str_contains PathLib.slash s = false -> PathLib.split_slash s = [s].
Proof.
  induction s as [|c s IH]; simpl; intros H; [reflexivity |].
  apply orb_false_iff in H as [Hc Hs]. rewrite Hc, (IH Hs). reflexivity.
Qed.

(** A text without separator, other than the dot, is one component. *)
Lemma parse_single (s : string) :
  str_contains PathLib.slash s = false -> s <> "" -> s <> "." ->
  PathLib.parse s = PathLib.mkPath "" [s].
Proof.
  intros Hs He Hd. unfold PathLib.parse. rewrite (split_slash_single s Hs).
  assert (Hb : Spec.begins_with_slash s = false).
  { destruct s as [|c s]; [reflexivity |]. simpl in *. now apply orb_false_iff in Hs. }
  rewrite (splitroot_relative s Hb). cbn [filter]. unfold PathLib.kept_component.
  apply String.eqb_neq in He, Hd. now rewrite He, Hd.
Qed.

Lemma begins_with_slash_app (a b : string) :
  Spec.begins_with_slash a = false -> Spec.begins_with_slash (a ++ "." ++ b) = false.
Proof. destruct a; simpl; auto. Qed.

Lemma named_file_not_empty (a b : string) : a ++ "." ++ b <> "".
Proof. destruct a; discriminate. Qed.

(** ** Downloading audio *)

(** The claim as the specification words it, with the path always under the
    base output directory, fails: a title that begins with the path
    separator makes the joined path absolute. *)
Lemma audio_path_can_leave_base :
  ~ (forall yt self url format d title,
       YtDlp.extract_info yt (audio_opts self format) url true = Ok (Some d) ->
       dict_lookup "title" d = Some (VStr title) ->
       exists filename,
         download_audio yt self url format = Ok (true, VStr title, Some filename) /\
         Spec.under (download_path self) (PathLib.parse filename)).
Proof.
  intros claim.
  destruct (claim (Sample.returning (Some (Sample.video "/r/x" 125 "")) "f")
                  Sample.self Sample.url "mp3" (Sample.video "/r/x" 125 "") "/r/x"
                  eq_refl eq_refl) as [filename [Hrun [Hroot _]]].
  vm_compute in Hrun. injection Hrun as <-. vm_compute in Hroot. discriminate.
Qed.

(** C8. On a successful audio download the output path is the text of the
    join of the base output directory with title, dot, format: the path
    that the library reports plays no part in it. When the title does not
    begin with the path separator, the path is made of the components of the
    base directory followed by those of the name, and when it does, of those
    of the name alone, from the root. When the name holds no separator and
    is neither the dot nor the parent directory, the path is that of the
    entry of that very name in the base directory. *)
Theorem audio_output_path (yt : YtDlp.api) (self : YouTubeDownloader.t) (url format : string)
    (d : dict) (title : value) :
  YtDlp.extract_info yt (audio_opts self format) url true = Ok (Some d) ->
  dict_lookup "title" d = Some title ->
  download_audio yt self url format
    = Ok (true, title,
          Some (PathLib.to_str (PathLib.div (download_path self) (str title ++ "." ++ format))))
  /\ (forall prepare,
        download_audio (YtDlp.mkApi (YtDlp.extract_info yt) prepare) self url format
        = download_audio yt self url format)
  /\ (Spec.begins_with_slash (str title) = false ->
      PathLib.div (download_path self) (str title ++ "." ++ format)
      = PathLib.mkPath (PathLib.root (download_path self))
                       (PathLib.parts (download_path self)
                          ++ PathLib.parts (PathLib.parse (str title ++ "." ++ format))))
  /\ (Spec.begins_with_slash (str title) = true ->
      PathLib.div (download_path self) (str title ++ "." ++ format)
      = PathLib.parse (str title ++ "." ++ format))
  /\ (str_contains PathLib.slash (str title ++ "." ++ format) = false ->
      str title ++ "." ++ format <> "." ->
      str title ++ "." ++ format <> ".." ->
      PathLib.div (download_path self) (str title ++ "." ++ format)
      = PathLib.child (download_path self) (str title ++ "." ++ format)).
Proof.
  intros Hq Ht. split; [| split; [| split; [| split]]].
  - unfold download_audio. rewrite Hq. cbn [bind YtDlp.item]. unfold dict_item.
    rewrite Ht. reflexivity.
  - intros prepare. reflexivity.
  - intros Hb. apply div_relative. now apply begins_with_slash_app.
  - intros Hb. apply div_absolute. destruct (str title); [discriminate | exact Hb].
  - intros Hs Hd _. unfold PathLib.div.
    rewrite (parse_single _ Hs (named_file_not_empty _ _) Hd). reflexivity.
Qed.

Lemma audio_output_path_witness :
  download_audio (Sample.returning (Some (Sample.video "Song" 125 "")) "reported.webm")
                 Sample.self Sample.url "mp3"
    = Ok (true, VStr "Song", Some "downloads/Song.mp3").
Proof.
  apply (audio_output_path
           (Sample.returning (Some (Sample.video "Song" 125 "")) "reported.webm")
           Sample.self Sample.url "mp3" (Sample.video "Song" 125 "") (VStr "Song"));
    reflexivity.
Defined.

(** ** Building the archive *)

Lemma walk_dir_cons (e : string * FS.node) (entries : list (string * FS.node)) :
  FS.walk (FS.Dir (e :: entries))
  = (([fst e], snd e) :: map (fun r => (fst e :: fst r, snd r)) (FS.walk (snd e))
       ++ FS.walk (FS.Dir entries))%list.
Proof. reflexivity. Qed.

Lemma accepted_below (name : string) (l : list (list string * FS.node)) :
  List.length (filter (fun r => FS.is_file (snd r))
                      (map (fun r : list string * FS.node => (name :: fst r, snd r)) l))
  = List.length (filter (fun r => FS.is_file (snd r)) l).
Proof.
  induction l as [|r l IH]; [reflexivity |]. simpl.
  destruct (FS.is_file (snd r)); simpl; now rewrite IH.
Qed.

Lemma accepted_dir (entries : list (string * FS.node)) :
  List.length (Spec.accepted (FS.Dir entries))
  = list_sum (map (fun e => Spec.one_if (FS.is_file (snd e)) + List.length (Spec.accepted (snd e)))%nat
                  entries).
Proof.
  unfold Spec.accepted. induction entries as [|e entries IH]; [reflexivity |].
  rewrite walk_dir_cons. cbn [filter map list_sum snd].
  destruct (FS.is_file (snd e)); cbn [Spec.one_if List.length];
    rewrite filter_app, length_app, accepted_below, IH; reflexivity.
Qed.

Lemma list_sum_plus {A : Type} (f g : A -> nat) (l : list A) :
  list_sum (map (fun x => f x + g x)%nat l) = (list_sum (map f l) + list_sum (map g l))%nat.
Proof. induction l as [|x l IH]; simpl; [reflexivity | rewrite IH; lia]. Qed.

Lemma list_sum_ext {A : Type} (f g : A -> nat) (l : list A) :
  Forall (fun x => f x = g x) l -> list_sum (map f l) = list_sum (map g l).
Proof. induction 1 as [|x l Hx _ IH]; simpl; [reflexivity | now rewrite Hx, IH]. Qed.

(** As many entries are Spec.accepted as there are regular files and links to
    regular files. *)
Lemma accepted_count (tree : FS.node) :
  (Spec.one_if (FS.is_file tree) + List.length (Spec.accepted tree)
   = Spec.regular_files tree + Spec.file_links tree)%nat.
Proof.
  induction tree as [data | entries IH | target |] using node_induction;
    try reflexivity; [| destruct target; reflexivity].
  rewrite accepted_dir. cbn [FS.is_file Spec.one_if Spec.regular_files Spec.file_links plus].
  rewrite <- list_sum_plus. apply list_sum_ext.
  eapply Forall_impl; [| exact IH]. auto.
Qed.

(** The walk lists exactly what a relative path leads to. *)
Lemma walk_at_path (rel : list string) :
  forall tree n, In (rel, n) (FS.walk tree) -> Spec.at_path tree rel n.
Proof.
  induction rel as [|name rel IH]; intros tree n H;
    destruct tree as [| entries | |]; simpl in H; try contradiction;
    apply in_flat_map in H as [[name' sub] [He [H | H]]]; simpl in H;
    try discriminate.
  - apply in_map_iff in H as [r [H _]]. discriminate.
  - injection H as -> <- <-. now apply Spec.at_entry.
  - apply in_map_iff in H as [[rel' n'] [H Hr]]. simpl in H. injection H as -> <- <-.
    eapply Spec.at_below; eauto.
Qed.

Lemma at_path_walk (tree : FS.node) (rel : list string) (n : FS.node) :
  Spec.at_path tree rel n -> In (rel, n) (FS.walk tree).
Proof.
  induction 1 as [entries name n He | entries name sub rel n He _ IH]; simpl;
    apply in_flat_map; eexists; (split; [exact He |]); simpl.
  - now left.
  - right. apply in_map_iff. exists (rel, n). auto.
Qed.

Lemma fold_child (rel : list string) (p : PathLib.Path) :
  fold_left PathLib.child rel p = PathLib.mkPath (PathLib.root p) (PathLib.parts p ++ rel).
Proof.
  revert p. induction rel as [|name rel IH]; intros p; simpl.
  - rewrite app_nil_r. now destruct p.
  - rewrite IH. cbn [PathLib.child PathLib.root PathLib.parts]. now rewrite <- app_assoc.
Qed.

Lemma strip_prefix_app (pre l : list string) : PathLib.strip_prefix pre (pre ++ l) = Some l.
Proof. induction pre as [|x pre IH]; simpl; [reflexivity | now rewrite String.eqb_refl]. Qed.

(** Relative to the parent of the folder, an entry of the folder is the
    folder's name followed by the entry's relative path. *)
Lemma relative_to_parent (folder : PathLib.Path) (above : list string) (name : string)
    (rel : list string) :
  PathLib.parts folder = (above ++ [name])%list ->
  PathLib.relative_to (fold_left PathLib.child rel folder) (PathLib.parent folder)
  = Ok (PathLib.mkPath "" (name :: rel)).
Proof.
  intros Hp. rewrite fold_child. unfold PathLib.relative_to, PathLib.parent.
  cbn [PathLib.root PathLib.parts]. rewrite String.eqb_refl, Hp, removelast_last.
  now rewrite <- app_assoc, strip_prefix_app.
Qed.

Lemma parts_top_level (folder : PathLib.Path) :
  PathLib.parts folder
  = (PathLib.parts (PathLib.parent folder) ++ Spec.top_level folder)%list.
Proof.
  unfold Spec.top_level, PathLib.parent, PathLib.name. cbn [PathLib.parts].
  destruct (PathLib.parts folder) as [|c l] eqn:E; [reflexivity |].
  apply app_removelast_last. discriminate.
Qed.

Lemma top_level_named (folder : PathLib.Path) (above : list string) (name : string) :
  PathLib.parts folder = (above ++ [name])%list -> Spec.top_level folder = [name].
Proof.
  intros H. unfold Spec.top_level, PathLib.name. rewrite H, last_last.
  destruct above; reflexivity.
Qed.

Lemma relative_to_parent_any (folder : PathLib.Path) (rel : list string) :
  PathLib.relative_to (fold_left PathLib.child rel folder) (PathLib.parent folder)
  = Ok (PathLib.mkPath "" (Spec.top_level folder ++ rel)).
Proof.
  rewrite fold_child. unfold PathLib.relative_to.
  cbn [PathLib.root PathLib.parts PathLib.parent]. rewrite String.eqb_refl.
  rewrite (parts_top_level folder) at 2. cbn [PathLib.parent PathLib.parts].
  now rewrite <- app_assoc, strip_prefix_app.
Qed.

(** The body of the loop of [create_zip]. *)
Abbreviation zip_step os folder :=
  (fun zipf file =>
     if FS.is_file (snd file)
     then (arc <- PathLib.relative_to (fst file) (PathLib.parent folder) ;;
           ZipFile.write os zipf (fst file) (snd file) arc)
     else Ok zipf).

(** When every accepted file can be stored, the loop appends one entry for
    each of them, in the order of the walk. *)
Lemma zip_loop_ok (os : OS.api) (folder : PathLib.Path)
    (found : list (list string * FS.node)) :
  (forall r, In r found -> FS.is_file (snd r) = true ->
             OS.store_error os (fold_left PathLib.child (fst r) folder) = None) ->
  forall zipf,
    for_each (zip_step os folder)
             (map (fun r => (fold_left PathLib.child (fst r) folder, snd r)) found) zipf
    = Ok (zipf ++ map (Spec.entry_under (Spec.top_level folder))
                      (filter (fun r => FS.is_file (snd r)) found))%list.
Proof.
  induction found as [|r found IH]; intros Hs zipf; cbn [map for_each filter].
  - now rewrite app_nil_r.
  - cbn [fst snd]. destruct (FS.is_file (snd r)) eqn:Hf; cbn [bind].
    + rewrite (relative_to_parent_any folder (fst r)). cbn [bind].
      unfold ZipFile.write. rewrite (Hs r (or_introl eq_refl) Hf). cbn [bind].
      rewrite IH by (intros r' Hr'; apply Hs; now right).
      now rewrite <- app_assoc.
    + apply IH. intros r' Hr'. apply Hs. now right.
Qed.

(** When the loop ends without exception, every accepted file could be
    stored. *)
Lemma zip_loop_inv (os : OS.api) (folder : PathLib.Path)
    (found : list (list string * FS.node)) :
  forall zipf result,
    for_each (zip_step os folder)
             (map (fun r => (fold_left PathLib.child (fst r) folder, snd r)) found) zipf
    = Ok result ->
    forall r, In r found -> FS.is_file (snd r) = true ->
              OS.store_error os (fold_left PathLib.child (fst r) folder) = None.
Proof.
  induction found as [|r found IH]; intros zipf result H r' Hin Hf; [contradiction |].
  cbn [map for_each fst snd] in H. destruct (FS.is_file (snd r)) eqn:Hr; cbn [bind] in H.
  - rewrite (relative_to_parent_any folder (fst r)) in H. cbn [bind] in H.
    unfold ZipFile.write in H.
    destruct (OS.store_error os (fold_left PathLib.child (fst r) folder)) eqn:Hs;
      [discriminate |].
    cbn [bind] in H. destruct Hin as [<- | Hin]; [exact Hs | exact (IH _ _ H r' Hin Hf)].
  - destruct Hin as [<- | Hin]; [congruence | exact (IH _ _ H r' Hin Hf)].
Qed.

(** [create_zip] when every file operation succeeds. *)
Lemma create_zip_ok (os : OS.api) (self : YouTubeDownloader.t) (tree : FS.node)
    (folder_path zip_name : string) :
  OS.open_archive os (PathLib.div (download_path self) (zip_name ++ ".zip")) = Ok tt ->
  OS.close_archive os = Ok tt ->
  (forall r,
      In r (Spec.accepted (walked os (PathLib.div (download_path self) (zip_name ++ ".zip"))
                                  (PathLib.parse folder_path) tree)) ->
      OS.store_error os (fold_left PathLib.child (fst r) (PathLib.parse folder_path)) = None) ->
  create_zip os self tree folder_path zip_name
  = Ok (PathLib.to_str (PathLib.div (download_path self) (zip_name ++ ".zip")),
        map (Spec.entry_under (Spec.top_level (PathLib.parse folder_path)))
            (Spec.accepted (walked os (PathLib.div (download_path self) (zip_name ++ ".zip"))
                                   (PathLib.parse folder_path) tree))).
Proof.
  intros Ho Hc Hs. unfold create_zip, FS.rglob_star. rewrite Ho. cbn [bind].
  rewrite zip_loop_ok.
  - rewrite Hc. reflexivity.
  - intros r Hr Hf. apply Hs. unfold Spec.accepted. apply filter_In. auto.
Qed.

(** [create_zip] returns only when every file operation succeeded. *)
Lemma create_zip_inv (os : OS.api) (self : YouTubeDownloader.t) (tree : FS.node)
    (folder_path zip_name path : string) (archive : ZipFile.t) :
  create_zip os self tree folder_path zip_name = Ok (path, archive) ->
  OS.open_archive os (PathLib.div (download_path self) (zip_name ++ ".zip")) = Ok tt /\
  OS.close_archive os = Ok tt /\
  (forall r,
      In r (Spec.accepted (walked os (PathLib.div (download_path self) (zip_name ++ ".zip"))
                                  (PathLib.parse folder_path) tree)) ->
      OS.store_error os (fold_left PathLib.child (fst r) (PathLib.parse folder_path)) = None) /\
  path = PathLib.to_str (PathLib.div (download_path self) (zip_name ++ ".zip")) /\
  archive = map (Spec.entry_under (Spec.top_level (PathLib.parse folder_path)))
                (Spec.accepted (walked os (PathLib.div (download_path self) (zip_name ++ ".zip"))
                                       (PathLib.parse folder_path) tree)).
Proof.
  intros H.
  assert (Ho : OS.open_archive os (PathLib.div (download_path self) (zip_name ++ ".zip"))
               = Ok tt).
  { unfold create_zip in H.
    destruct (OS.open_archive os _) as [[] | e]; [reflexivity | discriminate]. }
  assert (Hs : forall r,
             In r (Spec.accepted (walked os (PathLib.div (download_path self)
                                                         (zip_name ++ ".zip"))
                                         (PathLib.parse folder_path) tree)) ->
             OS.store_error os (fold_left PathLib.child (fst r) (PathLib.parse folder_path))
             = None).
  { unfold create_zip, FS.rglob_star in H. rewrite Ho in H. cbn [bind] in H.
    intros r Hr. unfold Spec.accepted in Hr. apply filter_In in Hr as [Hr Hf].
    destruct (for_each _ _ ZipFile.empty) as [zipf | e] eqn:Hloop.
    - exact (zip_loop_inv _ _ _ _ _ Hloop r Hr Hf).
    - destruct (OS.close_archive os); discriminate. }
  assert (Hc : OS.close_archive os = Ok tt).
  { unfold create_zip in H. rewrite Ho in H. cbn [bind] in H.
    destruct (for_each _ _ ZipFile.empty) as [zipf | e0];
      destruct (OS.close_archive os) as [[] | e]; try discriminate; reflexivity. }
  rewrite (create_zip_ok os self tree folder_path zip_name Ho Hc Hs) in H.
  injection H as <- <-. auto.
Qed.

Lemma accepted_at_path (tree : FS.node) (r : list string * FS.node) :
  In r (Spec.accepted tree) <-> Spec.at_path tree (fst r) (snd r) /\ FS.is_file (snd r) = true.
Proof.
  unfold Spec.accepted. rewrite filter_In. destruct r as [rel n]. cbn [fst snd].
  split; intros [H Hf]; split; auto; [now apply walk_at_path | now apply at_path_walk].
Qed.

Lemma at_path_nonempty (tree : FS.node) (rel : list string) (n : FS.node) :
  Spec.at_path tree rel n -> rel <> [].
Proof. destruct 1; discriminate. Qed.

(** What [is_file] accepts holds bytes, those that are read from it. *)
Lemma holds_accepted (n : FS.node) (data : FS.bytes) :
  Spec.holds n data <-> FS.is_file n = true /\ FS.read_bytes n = data.
Proof.
  split.
  - intros []; auto.
  - intros [Hf <-]. destruct n as [data | entries | [data | | |] |]; try discriminate;
      constructor.
Qed.

(** The entries written for the accepted nodes of a tree. *)
Lemma entries_of_tree (top : list string) (tree : FS.node) (e : ZipFile.entry) :
  In e (map (Spec.entry_under top) (Spec.accepted tree)) <->
  exists rel n data, Spec.at_path tree rel n /\ Spec.holds n data /\
                     e = ZipFile.mkEntry (PathLib.mkPath "" (top ++ rel)) data.
Proof.
  rewrite in_map_iff. split.
  - intros [r [<- Hr]]. apply accepted_at_path in Hr as [Ha Hf].
    exists (fst r), (snd r), (FS.read_bytes (snd r)).
    split; [exact Ha |]. split; [now apply holds_accepted | reflexivity].
  - intros [rel [n [data [Ha [Hh ->]]]]]. apply holds_accepted in Hh as [Hf <-].
    exists (rel, n). split; [reflexivity |]. now apply accepted_at_path.
Qed.

Lemma list_sum_in {A : Type} (f : A -> nat) (x : A) (l : list A) :
  In x l -> (f x <= list_sum (map f l))%nat.
Proof.
  induction l as [|y l IH]; simpl; intros H; [contradiction |].
  destruct H as [-> | H]; [lia | specialize (IH H); lia].
Qed.

Lemma file_links_at_path (tree : FS.node) (rel : list string) (n : FS.node) :
  Spec.at_path tree rel n -> (Spec.file_links n <= Spec.file_links tree)%nat.
Proof.
  induction 1 as [entries name n He | entries name sub rel n He _ IH]; simpl.
  - apply (list_sum_in (fun e => Spec.file_links (snd e)) (name, n) entries He).
  - pose proof (list_sum_in (fun e => Spec.file_links (snd e)) (name, sub) entries He) as Hs.
    simpl in Hs. lia.
Qed.

(** The claim as the specification words it, with symbolic links skipped and
    as many entries as regular files, fails even when every file operation
    succeeds and the archive lies outside the folder: [is_file] follows
    links, so a link to a regular file is archived as well. *)
Lemma archive_keeps_links_to_files :
  ~ (forall os self entries folder_path zip_name path archive,
       OS.inside os (PathLib.div (download_path self) (zip_name ++ ".zip"))
                 (PathLib.parse folder_path) = None ->
       create_zip os self (FS.Dir entries) folder_path zip_name = Ok (path, archive) ->
       List.length archive = Spec.regular_files (FS.Dir entries)).
Proof.
  intros claim.
  specialize (claim Sample.os Sample.self
                    [("1 - a.mp3", FS.File Sample.payload);
                     ("latest.mp3", FS.Symlink (FS.ToFile Sample.payload))]
                    "downloads/My List" "My List" _ _ eq_refl eq_refl).
  vm_compute in claim. discriminate.
Qed.

(** C1. For a source folder whose path ends in a name: when the archive
    file can be created, does not lie in the source folder, every accepted
    file can be stored and the archive can be closed, [create_zip] returns
    the path of the archive in the base output directory, and the archive
    holds one entry for each path under the folder that [is_file] accepts,
    a regular file or a symbolic link to one, and no other entry. An entry
    is stored under the folder's name followed by the path relative to the
    folder, with the bytes of the file (of the file linked to, for a link).
    The entries are as many as the regular files and the links to regular
    files together; in a tree without such links they are exactly the
    regular files; an empty directory gives an archive without entries. *)
Theorem archive_of_tree (os : OS.api) (self : YouTubeDownloader.t)
    (entries : list (string * FS.node)) (folder_path zip_name : string)
    (above : list string) (name : string) :
  PathLib.parts (PathLib.parse folder_path) = (above ++ [name])%list ->
  OS.open_archive os (PathLib.div (download_path self) (zip_name ++ ".zip")) = Ok tt ->
  OS.inside os (PathLib.div (download_path self) (zip_name ++ ".zip"))
            (PathLib.parse folder_path) = None ->
  (forall file, OS.store_error os file = None) ->
  OS.close_archive os = Ok tt ->
  exists archive,
    create_zip os self (FS.Dir entries) folder_path zip_name
      = Ok (PathLib.to_str (PathLib.div (download_path self) (zip_name ++ ".zip")), archive)
    /\ (forall e, In e archive <->
                  exists rel n data,
                    Spec.at_path (FS.Dir entries) rel n /\ Spec.holds n data /\
                    e = ZipFile.mkEntry (PathLib.mkPath "" (name :: rel)) data)
    /\ List.length archive
       = (Spec.regular_files (FS.Dir entries) + Spec.file_links (FS.Dir entries))%nat
    /\ (Spec.file_links (FS.Dir entries) = 0%nat ->
        List.length archive = Spec.regular_files (FS.Dir entries) /\
        forall e, In e archive <->
                  exists rel data, Spec.at_path (FS.Dir entries) rel (FS.File data) /\
                                   e = ZipFile.mkEntry (PathLib.mkPath "" (name :: rel)) data)
    /\ (entries = [] -> archive = []).
Proof.
  intros Hp Ho Hi Hs Hc.
  exists (map (Spec.entry_under [name]) (Spec.accepted (FS.Dir entries))).
  assert (Hin : forall e,
             In e (map (Spec.entry_under [name]) (Spec.accepted (FS.Dir entries))) <->
             exists rel n data,
               Spec.at_path (FS.Dir entries) rel n /\ Spec.holds n data /\
               e = ZipFile.mkEntry (PathLib.mkPath "" (name :: rel)) data).
  { intros e. apply (entries_of_tree [name]). }
  assert (Hlen : List.length (map (Spec.entry_under [name]) (Spec.accepted (FS.Dir entries)))
                 = (Spec.regular_files (FS.Dir entries)
                    + Spec.file_links (FS.Dir entries))%nat).
  { rewrite length_map. exact (accepted_count (FS.Dir entries)). }
  split.
  { rewrite (create_zip_ok os self (FS.Dir entries) folder_path zip_name Ho Hc)
      by (intros r _; apply Hs).
    unfold walked. now rewrite Hi, (top_level_named _ above name Hp). }
  split; [exact Hin |]. split; [exact Hlen |]. split.
  - intros Hl. split; [rewrite Hlen, Hl; lia |].
    intros e. rewrite Hin. split.
    + intros [rel [n [data [Ha [Hh He]]]]]. exists rel, data. split; [| exact He].
      destruct Hh as [data | data]; [exact Ha |].
      pose proof (file_links_at_path _ _ _ Ha) as Hle.
      change (Spec.file_links (FS.Symlink (FS.ToFile data))) with 1%nat in Hle. lia.
    + intros [rel [data [Ha He]]]. exists rel, (FS.File data), data.
      split; [exact Ha |]. split; [constructor | exact He].
  - intros ->. reflexivity.
Qed.

Lemma archive_of_tree_witness :
  exists archive,
    create_zip Sample.os Sample.self Sample.tree "downloads/My List" "My List"
      = Ok ("downloads/My List.zip", archive)
    /\ List.length archive = 2%nat
    /\ In (ZipFile.mkEntry (PathLib.mkPath "" ["My List"; "extra"; "2 - b.mp3"]) [Byte.x03])
          archive.
Proof.
  destruct (archive_of_tree Sample.os Sample.self
              [("1 - a.mp3", FS.File Sample.payload);
               ("extra", FS.Dir [("2 - b.mp3", FS.File [Byte.x03])]);
               ("empty", FS.Dir []);
               ("pipe", FS.Special);
               ("gone", FS.Symlink FS.Dangling);
               ("other", FS.Symlink FS.ToDir)]
              "downloads/My List" "My List" ["downloads"] "My List"
              eq_refl eq_refl eq_refl (fun _ => eq_refl) eq_refl)
    as [archive [Hrun [Hin [Hlen _]]]].
  exists archive. split; [exact Hrun |]. split; [exact Hlen |].
  apply Hin. exists ["extra"; "2 - b.mp3"], (FS.File [Byte.x03]), [Byte.x03].
  split; [| split; [constructor | reflexivity]].
  eapply Spec.at_below; [right; left; reflexivity |].
  apply Spec.at_entry. left. reflexivity.
Defined.

(** * Further properties of the facade *)

(** ** The shape of what the downloads return *)

(** X1. Whatever the library does, [download_video] and [download_audio]
    return either success with a title and an output path, or failure with a
    text message and no path: never success without a path, never a path
    with a failure. *)
Theorem download_result_shape (yt : YtDlp.api) (self : YouTubeDownloader.t)
    (url quality format : string) :
  ((exists title filename,
       download_video yt self url quality = Ok (true, title, Some filename)) \/
   (exists message, download_video yt self url quality = Ok (false, VStr message, None)))
  /\
  ((exists title filename,
       download_audio yt self url format = Ok (true, title, Some filename)) \/
   (exists message, download_audio yt self url format = Ok (false, VStr message, None))).
Proof.
  split.
  - unfold download_video.
    destruct (YtDlp.extract_info yt (video_opts self quality) url true) as [info | e];
      cbn [bind try_except]; [| eauto].
    destruct (YtDlp.prepare_filename yt (video_opts self quality) info) as [filename | e];
      cbn [bind try_except]; [| eauto].
    destruct (YtDlp.item info "title") as [title | e]; cbn [bind try_except]; eauto.
  - unfold download_audio.
    destruct (YtDlp.extract_info yt (audio_opts self format) url true) as [info | e];
      cbn [bind try_except]; [| eauto].
    destruct (YtDlp.item info "title") as [title | e]; cbn [bind try_except]; eauto.
Qed.

Lemma len_nonneg (v : value) (n : Z) : len v = Ok n -> 0 <= n.
Proof. destruct v; simpl; intros H; try discriminate; injection H as <-; lia. Qed.

(** X2. Whatever the library does, [download_playlist] returns either
    success with a text title, a count that is not negative and a folder,
    or failure with a text message, the count 0 and no folder. *)
Theorem playlist_result_shape (yt : YtDlp.api) (self : YouTubeDownloader.t)
    (url download_type quality audio_format : string) :
  (exists title count folder,
      download_playlist yt self url download_type quality audio_format
        = Ok (true, VStr title, count, Some folder) /\ 0 <= count) \/
  (exists message,
      download_playlist yt self url download_type quality audio_format
        = Ok (false, VStr message, 0, None)).
Proof.
  unfold download_playlist.
  destruct (YtDlp.extract_info yt _ url true) as [[d |] | e];
    cbn [bind try_except YtDlp.get]; eauto.
  destruct (len (dict_get d "entries" (VList []))) as [n | e] eqn:Hn;
    cbn [bind try_except]; [| eauto].
  destruct (dict_get d "title" (VStr "playlist")) as [| z | title | l | d'];
    cbn [bind try_except PathLib.div_value]; eauto.
  left. exists title, n. eexists. split; [reflexivity | now apply (len_nonneg _ _ Hn)].
Qed.

(** ** Information that is missing *)

(** X3. When the library returns [None] in place of the information, as it
    does for a collection it could not read while errors are ignored,
    [download_playlist] reports failure with the text of the attribute
    error, the count 0 and no folder. *)
Theorem playlist_without_info_fails (yt : YtDlp.api) (self : YouTubeDownloader.t)
    (url download_type quality audio_format : string) :
  YtDlp.extract_info yt (playlist_opts self download_type quality audio_format) url true
    = Ok None ->
  download_playlist yt self url download_type quality audio_format
    = Ok (false, VStr "'NoneType' object has no attribute 'get'", 0, None).
Proof. intros Hq. unfold download_playlist. now rewrite Hq. Qed.

Lemma playlist_without_info_fails_witness :
  download_playlist (Sample.returning None "f") Sample.self Sample.url "video" "best" "mp3"
    = Ok (false, VStr "'NoneType' object has no attribute 'get'", 0, None).
Proof.
  apply (playlist_without_info_fails (Sample.returning None "f") Sample.self Sample.url
           "video" "best" "mp3").
  reflexivity.
Defined.

(** X4. When the information has no title, both downloads report failure
    with the message ['title'] (the key, quoted) although the library has
    done its work, and the path the library reported is dropped. *)
Theorem download_without_title_fails (yt : YtDlp.api) (self : YouTubeDownloader.t)
    (url quality format : string) (d : dict) (filename : string) :
  dict_lookup "title" d = None ->
  YtDlp.extract_info yt (video_opts self quality) url true = Ok (Some d) ->
  YtDlp.prepare_filename yt (video_opts self quality) (Some d) = Ok filename ->
  YtDlp.extract_info yt (audio_opts self format) url true = Ok (Some d) ->
  download_video yt self url quality = Ok (false, VStr "'title'", None) /\
  download_audio yt self url format = Ok (false, VStr "'title'", None).
Proof.
  intros Ht Hv Hf Ha. split.
  - unfold download_video. rewrite Hv. cbn [bind]. rewrite Hf.
    cbn [bind YtDlp.item]. unfold dict_item. now rewrite Ht.
  - unfold download_audio. rewrite Ha. cbn [bind YtDlp.item]. unfold dict_item.
    now rewrite Ht.
Qed.

Lemma download_without_title_fails_witness :
  download_video (Sample.returning (Some [("id", VStr "abc")]) "downloads/NA.mp4")
                 Sample.self Sample.url "best" = Ok (false, VStr "'title'", None) /\
  download_audio (Sample.returning (Some [("id", VStr "abc")]) "downloads/NA.mp4")
                 Sample.self Sample.url "mp3" = Ok (false, VStr "'title'", None).
Proof.
  apply (download_without_title_fails
           (Sample.returning (Some [("id", VStr "abc")]) "downloads/NA.mp4")
           Sample.self Sample.url "best" "mp3" [("id", VStr "abc")] "downloads/NA.mp4");
    reflexivity.
Defined.

(** X5. A collection without the key [title] is downloaded under the name
    [playlist]: that is the title returned and the last component of the
    folder. *)
Theorem playlist_default_title (yt : YtDlp.api) (self : YouTubeDownloader.t)
    (url download_type quality audio_format : string) (d : dict) (count : Z) :
  YtDlp.extract_info yt (playlist_opts self download_type quality audio_format) url true
    = Ok (Some d) ->
  dict_lookup "title" d = None ->
  len (dict_get d "entries" (VList [])) = Ok count ->
  download_playlist yt self url download_type quality audio_format
    = Ok (true, VStr "playlist", count,
          Some (PathLib.to_str (PathLib.child (download_path self) "playlist"))).
Proof.
  intros Hq Ht Hn. unfold download_playlist. rewrite Hq. cbn [bind YtDlp.get].
  assert (Hd : dict_get d "title" (VStr "playlist") = VStr "playlist").
  { unfold dict_get. now rewrite Ht. }
  rewrite Hd, Hn. reflexivity.
Qed.

Lemma playlist_default_title_witness :
  download_playlist (Sample.returning (Some [("entries", VList [VNone; VNone])]) "f")
                    Sample.self Sample.url "audio" "best" "mp3"
    = Ok (true, VStr "playlist", 2, Some "downloads/playlist").
Proof.
  apply (playlist_default_title
           (Sample.returning (Some [("entries", VList [VNone; VNone])]) "f")
           Sample.self Sample.url "audio" "best" "mp3" [("entries", VList [VNone; VNone])] 2);
    reflexivity.
Defined.

(** X6. A collection whose title is there but is not text ([None], say) is
    reported as a failure, with the count 0, although the library returned
    and its entries could be counted. *)
Theorem playlist_title_not_text_fails (yt : YtDlp.api) (self : YouTubeDownloader.t)
    (url download_type quality audio_format : string) (d : dict) (title : value) (count : Z) :
  YtDlp.extract_info yt (playlist_opts self download_type quality audio_format) url true
    = Ok (Some d) ->
  dict_lookup "title" d = Some title ->
  (forall s, title <> VStr s) ->
  len (dict_get d "entries" (VList [])) = Ok count ->
  download_playlist yt self url download_type quality audio_format
    = Ok (false,
          VStr ("unsupported operand type(s) for /: 'PosixPath' and '"
                  ++ type_name title ++ "'"),
          0, None).
Proof.
  intros Hq Ht Hs Hn. unfold download_playlist. rewrite Hq. cbn [bind YtDlp.get].
  assert (Hd : dict_get d "title" (VStr "playlist") = title).
  { unfold dict_get. now rewrite Ht. }
  rewrite Hd, Hn. cbn [bind].
  destruct title; try reflexivity. now destruct (Hs s).
Qed.

Lemma playlist_title_not_text_fails_witness :
  download_playlist
    (Sample.returning (Some [("title", VNone); ("entries", VList [Sample.flat_entry 1])]) "f")
    Sample.self Sample.url "video" "720p" "mp3"
    = Ok (false, VStr "unsupported operand type(s) for /: 'PosixPath' and 'NoneType'",
          0, None).
Proof.
  apply (playlist_title_not_text_fails
           (Sample.returning
              (Some [("title", VNone); ("entries", VList [Sample.flat_entry 1])]) "f")
           Sample.self Sample.url "video" "720p" "mp3"
           [("title", VNone); ("entries", VList [Sample.flat_entry 1])] VNone 1);
    [reflexivity | reflexivity | discriminate | reflexivity].
Defined.

(** ** Metadata of one item: defaults, failures, bounds *)

(** X7. For an item whose information has neither duration nor description
    [get_video_info] returns metadata with the duration 0:00 and the empty
    description; the other fields are what the dictionary holds, [None]
    (0 for the views) where it holds nothing. *)
Theorem video_info_defaults (yt : YtDlp.api) (self : YouTubeDownloader.t) (url : string)
    (d : dict) :
  YtDlp.extract_info yt info_opts url false = Ok (Some d) ->
  dict_lookup "duration" d = None ->
  dict_lookup "description" d = None ->
  get_video_info yt self url
  = Ok (Some (mkVideoInfo (dict_get d "title" VNone) "0:00" (dict_get d "uploader" VNone)
                          (dict_get d "view_count" (VInt 0)) (dict_get d "thumbnail" VNone)
                          (VStr ""))).
Proof.
  intros Hq Hdur Hdesc.
  rewrite (get_video_info_run yt self url d 0 Hq) by (unfold dict_get; now rewrite Hdur).
  rewrite (description_field_str d "") by (unfold dict_get; now rewrite Hdesc).
  reflexivity.
Qed.

Lemma video_info_defaults_witness :
  get_video_info (Sample.returning (Some [("title", VStr "t")]) "f") Sample.self Sample.url
  = Ok (Some (mkVideoInfo (VStr "t") "0:00" VNone (VInt 0) VNone (VStr ""))).
Proof.
  apply (video_info_defaults (Sample.returning (Some [("title", VStr "t")]) "f")
           Sample.self Sample.url [("title", VStr "t")]); reflexivity.
Defined.

Lemma description_field_none (d : dict) :
  dict_lookup "description" d = Some VNone -> exists e, description_field (Some d) = Raise e.
Proof.
  intros H. unfold description_field. cbn [YtDlp.get bind].
  assert (Hd : dict_get d "description" (VStr "") = VNone) by (unfold dict_get; now rewrite H).
  rewrite Hd. cbn [len bind]. eauto.
Qed.

(** X8. When the query succeeds but the duration is there and is not an
    integer ([None] for a live stream, say), or the description is [None],
    [get_video_info] returns [None]: the item is reported as not found. *)
Theorem video_info_lost_on_odd_values (yt : YtDlp.api) (self : YouTubeDownloader.t)
    (url : string) (d : dict) :
  YtDlp.extract_info yt info_opts url false = Ok (Some d) ->
  (exists v, dict_lookup "duration" d = Some v /\ forall z, v <> VInt z) \/
  dict_lookup "description" d = Some VNone ->
  get_video_info yt self url = Ok None.
Proof.
  intros Hq H.
  destruct (dict_get d "duration" (VInt 0)) as [| S | s | l | d'] eqn:Hdur.
  2: { destruct H as [[v [Hv Hz]] | Hdesc].
       - unfold dict_get in Hdur. rewrite Hv in Hdur. now destruct (Hz S).
       - rewrite (get_video_info_run yt self url d S Hq Hdur).
         now destruct (description_field_none d Hdesc) as [e ->]. }
  all: unfold get_video_info; rewrite Hq; cbn [bind YtDlp.get]; rewrite Hdur; reflexivity.
Qed.

Lemma video_info_lost_on_odd_values_witness :
  get_video_info
    (Sample.returning (Some [("title", VStr "live"); ("duration", VNone)]) "f")
    Sample.self Sample.url = Ok None.
Proof.
  apply (video_info_lost_on_odd_values _ _ _ [("title", VStr "live"); ("duration", VNone)]).
  - reflexivity.
  - left. exists VNone. split; [reflexivity | discriminate].
Defined.

Lemma description_field_bound (i : YtDlp.info) (t : string) :
  description_field i = Ok (VStr t) -> (String.length t <= 303)%nat.
Proof.
  destruct i as [d |]; [| discriminate]. unfold description_field. cbn [YtDlp.get bind].
  destruct (dict_get d "description" (VStr "")) as [| z | s | l | d']; cbn [len bind];
    try discriminate.
  - destruct (Z.gtb_spec (Z.of_nat (String.length s)) 300) as [E | E];
      cbn [slice_to bind add_str]; intros H; injection H as <-; [| lia].
    rewrite str_length_app. change (str_slice_to 300 s) with (str_take 300 s).
    rewrite str_take_length. change (String.length "...") with 3%nat. lia.
  - destruct (Z.of_nat (List.length l) >? 300); cbn [slice_to bind add_str]; discriminate.
  - destruct (Z.of_nat (List.length d') >? 300); cbn [slice_to bind add_str]; discriminate.
Qed.

(** What a returned [get_video_info] went through. *)
Lemma get_video_info_inv (yt : YtDlp.api) (self : YouTubeDownloader.t) (url : string)
    (r : video_info) :
  get_video_info yt self url = Ok (Some r) ->
  exists d S,
    YtDlp.extract_info yt info_opts url false = Ok (Some d) /\
    dict_get d "duration" (VInt 0) = VInt S /\
    description_field (Some d) = Ok (vi_description r) /\
    vi_duration r = str_of_int (S / 60) ++ ":" ++ format_0d 2 (S mod 60) /\
    vi_views r = dict_get d "view_count" (VInt 0).
Proof.
  intros H.
  destruct (YtDlp.extract_info yt info_opts url false) as [[d |] | e] eqn:Hq;
    try (unfold get_video_info in H; rewrite Hq in H; discriminate).
  destruct (dict_get d "duration" (VInt 0)) as [| S | s | l | d'] eqn:Hdur;
    try (unfold get_video_info in H; rewrite Hq in H; cbn [bind YtDlp.get] in H;
         rewrite Hdur in H; discriminate).
  rewrite (get_video_info_run yt self url d S Hq Hdur) in H.
  destruct (description_field (Some d)) as [desc | e] eqn:Hdesc; [| discriminate].
  injection H as <-. exists d, S. repeat split; solve [assumption | reflexivity].
Qed.

(** X9. Whenever [get_video_info] returns metadata whose description is
    text, that text has at most 303 characters: 300 and the ellipsis. *)
Theorem description_never_longer (yt : YtDlp.api) (self : YouTubeDownloader.t) (url : string)
    (r : video_info) (t : string) :
  get_video_info yt self url = Ok (Some r) ->
  vi_description r = VStr t ->
  (String.length t <= 303)%nat.
Proof.
  intros H Ht. destruct (get_video_info_inv yt self url r H) as [d [S [_ [_ [Hdesc _]]]]].
  rewrite Ht in Hdesc. exact (description_field_bound _ _ Hdesc).
Qed.

Lemma description_never_longer_witness :
  (String.length (str_repeat 300 "x" ++ "...") <= 303)%nat.
Proof.
  apply (description_never_longer
           (Sample.returning (Some (Sample.video "t" 59 (str_repeat 1000 "x"))) "f")
           Sample.self Sample.url
           (mkVideoInfo (VStr "t") "0:59" (VStr "someone") (VInt 1000) VNone
                        (VStr (str_repeat 300 "x" ++ "...")))); reflexivity.
Defined.

(** *** The duration text tells durations apart *)

Lemma str_of_int_inj (a b : Z) : str_of_int a = str_of_int b -> a = b.
Proof.
  unfold str_of_int. intros H. apply DecimalZ.to_int_inj.
  assert (Hnn : forall z, Z.to_int z <> Decimal.Pos Decimal.Nil /\
                          Z.to_int z <> Decimal.Neg Decimal.Nil).
  { intros [| p | p]; simpl; split; try discriminate; intros E; injection E as E;
      now apply DecimalPos.Unsigned.to_uint_nonnil in E. }
  assert (Hp : forall z, NilZero.int_of_string (NilZero.string_of_int (Z.to_int z))
                         = Some (Z.to_int z)).
  { intros z. apply NilZero.isi; apply Hnn. }
  pose proof (Hp a) as Ha. rewrite H, Hp in Ha. now injection Ha.
Qed.

Lemma str_app_inv (a b x y : string) :
  a ++ x = b ++ y -> String.length x = String.length y -> a = b /\ x = y.
Proof.
  revert b. induction a as [|c a IH]; intros [|c' b] H Hl; simpl in H.
  - auto.
  - subst x. simpl in Hl. rewrite str_length_app in Hl. lia.
  - subst y. simpl in Hl. rewrite str_length_app in Hl. lia.
  - injection H as -> H. destruct (IH b H Hl) as [-> ->]. auto.
Qed.

Lemma digit_inj (a b : Z) : 0 <= a < 10 -> 0 <= b < 10 -> Spec.digit a = Spec.digit b -> a = b.
Proof.
  intros Ha Hb H. unfold Spec.digit in H.
  apply (f_equal nat_of_ascii) in H.
  rewrite !nat_ascii_embedding in H by lia. lia.
Qed.

Lemma two_digit_inj (a b : Z) :
  0 <= a < 100 -> 0 <= b < 100 -> Spec.two_digit a = Spec.two_digit b -> a = b.
Proof.
  intros Ha Hb H. unfold Spec.two_digit in H. injection H as Hu Ht.
  apply digit_inj in Ht; [| apply Z.mod_pos_bound; lia | apply Z.mod_pos_bound; lia].
  apply digit_inj in Hu;
    [| split; [apply Z.div_pos; lia | apply Z.div_lt_upper_bound; lia]
     | split; [apply Z.div_pos; lia | apply Z.div_lt_upper_bound; lia]].
  rewrite (Z.div_mod a 10), (Z.div_mod b 10) by lia. now rewrite Hu, Ht.
Qed.

(** X10. Two items whose integer durations differ never get the same
    duration text from [get_video_info]: the text determines the number of
    seconds. *)
Theorem duration_text_determines_seconds (yt : YtDlp.api) (self : YouTubeDownloader.t)
    (url1 url2 : string) (d1 d2 : dict) (S1 S2 : Z) (r1 r2 : video_info) :
  YtDlp.extract_info yt info_opts url1 false = Ok (Some d1) ->
  YtDlp.extract_info yt info_opts url2 false = Ok (Some d2) ->
  dict_get d1 "duration" (VInt 0) = VInt S1 ->
  dict_get d2 "duration" (VInt 0) = VInt S2 ->
  get_video_info yt self url1 = Ok (Some r1) ->
  get_video_info yt self url2 = Ok (Some r2) ->
  vi_duration r1 = vi_duration r2 ->
  S1 = S2.
Proof.
  intros Hq1 Hq2 Hd1 Hd2 H1 H2 Heq.
  rewrite (get_video_info_run yt self url1 d1 S1 Hq1 Hd1) in H1.
  rewrite (get_video_info_run yt self url2 d2 S2 Hq2 Hd2) in H2.
  destruct (description_field (Some d1)); [| discriminate].
  destruct (description_field (Some d2)); [| discriminate].
  injection H1 as <-. injection H2 as <-. cbn [vi_duration] in Heq.
  pose proof (Z.mod_pos_bound S1 60) as B1. pose proof (Z.mod_pos_bound S2 60) as B2.
  rewrite !format_0d_two_digit in Heq by lia.
  apply str_app_inv in Heq as [Hm Hs]; [| reflexivity].
  apply str_of_int_inj in Hm. injection Hs as Hs Hs'.
  assert (Hsec : S1 mod 60 = S2 mod 60).
  { apply two_digit_inj; [lia | lia |]. unfold Spec.two_digit. now rewrite Hs, Hs'. }
  rewrite (Z.div_mod S1 60), (Z.div_mod S2 60) by lia. now rewrite Hm, Hsec.
Qed.

Lemma duration_text_determines_seconds_witness : 125 = 125.
Proof.
  apply (duration_text_determines_seconds
           (Sample.returning (Some (Sample.video "t" 125 "about")) "f")
           Sample.self Sample.url Sample.url
           (Sample.video "t" 125 "about") (Sample.video "t" 125 "about") 125 125
           (mkVideoInfo (VStr "t") "2:05" (VStr "someone") (VInt 1000) VNone (VStr "about"))
           (mkVideoInfo (VStr "t") "2:05" (VStr "someone") (VInt 1000) VNone (VStr "about")));
    reflexivity.
Defined.

(** ** Quality selectors that are not of the expected form *)

(** X11. [download_video], and [download_playlist] for videos, hand the
    library a height-bounded format expression for every selector other
    than "best", and its bound is the selector without its last character,
    whatever that character is: the selector "720", without its unit,
    bounds the height at 72. If the library raises on options of that
    format, the operation reports that failure. *)
Theorem selector_loses_last_character (yt : YtDlp.api) (self : YouTubeDownloader.t)
    (url bound : string) (last : ascii) (audio_format : string) (e : exception) :
  bound ++ String last "" <> "best" ->
  (forall opts, YtDlp.format opts = Some (Spec.height_bounded_format bound) ->
                YtDlp.extract_info yt opts url true = Raise e) ->
  download_video yt self url (bound ++ String last "")
    = Ok (false, VStr (exc_str e), None) /\
  download_playlist yt self url "video" (bound ++ String last "") audio_format
    = Ok (false, VStr (exc_str e), 0, None) /\
  YtDlp.format (video_opts self (bound ++ String last ""))
    = Some (Spec.height_bounded_format bound) /\
  YtDlp.format (playlist_opts self "video" (bound ++ String last "") audio_format)
    = Some (Spec.height_bounded_format bound).
Proof.
  intros Hne Hraise. apply String.eqb_neq in Hne.
  assert (H : format_selector (bound ++ String last "") = Spec.height_bounded_format bound).
  { unfold format_selector. rewrite Hne, str_slice_drop_last. reflexivity. }
  assert (Hv : YtDlp.format (video_opts self (bound ++ String last ""))
               = Some (Spec.height_bounded_format bound)).
  { simpl. now rewrite H. }
  assert (Hp : YtDlp.format (playlist_opts self "video" (bound ++ String last "")
                                           audio_format)
               = Some (Spec.height_bounded_format bound)).
  { simpl. now rewrite H. }
  repeat split; try assumption.
  - unfold download_video. now rewrite (Hraise _ Hv).
  - unfold download_playlist. now rewrite (Hraise _ Hp).
Qed.

Lemma selector_loses_last_character_witness :
  download_video Sample.echoing_format Sample.self Sample.url "720"
    = Ok (false, VStr "bestvideo[height<=72]+bestaudio/best", None) /\
  download_playlist Sample.echoing_format Sample.self Sample.url "video" "720" "mp3"
    = Ok (false, VStr "bestvideo[height<=72]+bestaudio/best", 0, None) /\
  YtDlp.format (video_opts Sample.self "720") = Some "bestvideo[height<=72]+bestaudio/best" /\
  YtDlp.format (playlist_opts Sample.self "video" "720" "mp3")
    = Some "bestvideo[height<=72]+bestaudio/best".
Proof.
  apply (selector_loses_last_character Sample.echoing_format Sample.self Sample.url
           "72" "0"%char "mp3" (mkExc "DownloadError" "bestvideo[height<=72]+bestaudio/best")).
  - discriminate.
  - intros opts H. simpl. now rewrite H.
Defined.

(** ** A collection with an entry that is not a dictionary *)

Lemma comprehension_raises {A B : Type} (f : A -> outcome B) (l : list A) (x : A) :
  In x l -> (exists e, f x = Raise e) -> exists e, comprehension f l = Raise e.
Proof.
  intros Hin [e0 Hx]. induction l as [|y l IH]; [contradiction |].
  cbn [comprehension]. destruct (f y) as [b | e] eqn:Hy; cbn [bind]; [| eauto].
  destruct Hin as [-> | Hin]; [congruence |].
  destruct (IH Hin) as [e ->]. cbn [bind]. eauto.
Qed.

(** X12. When one of the first ten entries of a collection is not a
    dictionary (a failed item is [None]), [get_playlist_info] returns
    [None]: the whole preview is lost, the other entries with it. *)
Theorem playlist_preview_lost_on_failed_entry (yt : YtDlp.api) (self : YouTubeDownloader.t)
    (url : string) (d : dict) (entries : list value) (bad : value) :
  YtDlp.extract_info yt flat_opts url false = Ok (Some d) ->
  dict_lookup "entries" d = Some (VList entries) ->
  In bad (firstn 10 entries) ->
  (forall e, bad <> VDict e) ->
  get_playlist_info yt self url = Ok None.
Proof.
  intros Hq Hd Hin Hbad. unfold get_playlist_info. rewrite Hq.
  cbn [bind YtDlp.contains YtDlp.get YtDlp.item]. unfold dict_contains, dict_item.
  rewrite Hd. cbn [bind len slice_to iter].
  change 10 with (Z.of_nat 10). rewrite firstn_slice.
  destruct (comprehension_raises preview_of (firstn 10 entries) bad Hin) as [e ->];
    [| reflexivity].
  destruct bad; try (eexists; reflexivity). now destruct (Hbad d0).
Qed.

Lemma playlist_preview_lost_on_failed_entry_witness :
  get_playlist_info
    (Sample.returning
       (Some (Sample.playlist "PL" [Sample.flat_entry 1; VNone; Sample.flat_entry 3])) "f")
    Sample.self Sample.url = Ok None.
Proof.
  apply (playlist_preview_lost_on_failed_entry _ _ _
           (Sample.playlist "PL" [Sample.flat_entry 1; VNone; Sample.flat_entry 3])
           [Sample.flat_entry 1; VNone; Sample.flat_entry 3] VNone).
  - reflexivity.
  - reflexivity.
  - right. left. reflexivity.
  - discriminate.
Defined.

(** ** The progress hook *)

(** X13. Given no widget, the hook does nothing and does not fail, for
    every dictionary that has a status: not even a total of zero bytes is
    divided by. *)
Theorem hook_without_widgets (self : YouTubeDownloader.t) (d : dict) (status : value) :
  dict_lookup "status" d = Some status ->
  progress_hook self d false false = Ok [].
Proof.
  intros Hs. unfold progress_hook, dict_item. rewrite Hs. cbn [bind].
  destruct (eq_str status "downloading"); cbn [andb bind]; [reflexivity |].
  destruct (eq_str status "finished"); reflexivity.
Qed.

Lemma hook_without_widgets_witness :
  progress_hook Sample.self
    [("status", VStr "downloading"); ("downloaded_bytes", VInt 5); ("total_bytes", VInt 0)]
    false false = Ok [].
Proof.
  apply (hook_without_widgets Sample.self _ (VStr "downloading")). reflexivity.
Defined.

(** X14. The hook raises: [KeyError] when the dictionary has no status,
    whatever widgets it was given; [ZeroDivisionError] when a download is
    under way, a progress bar was given, the downloaded bytes are an integer
    and the total is the integer zero. *)
Theorem hook_raises (self : YouTubeDownloader.t) (d1 d2 : dict) (downloaded : Z)
    (progress_bar status_text : bool) :
  dict_lookup "status" d1 = None ->
  dict_lookup "status" d2 = Some (VStr "downloading") ->
  dict_lookup "downloaded_bytes" d2 = Some (VInt downloaded) ->
  dict_lookup "total_bytes" d2 = Some (VInt 0) ->
  progress_hook self d1 progress_bar status_text = Raise (KeyError "'status'") /\
  progress_hook self d2 true status_text = Raise (ZeroDivisionError "division by zero").
Proof.
  intros H1 Hs Hd Ht. split; unfold progress_hook, dict_item, dict_contains.
  - now rewrite H1.
  - rewrite Hs, Hd, Ht. reflexivity.
Qed.

Lemma hook_raises_witness :
  progress_hook Sample.self [("downloaded_bytes", VInt 5)] true true
    = Raise (KeyError "'status'") /\
  progress_hook Sample.self
    [("status", VStr "downloading"); ("downloaded_bytes", VInt 5); ("total_bytes", VInt 0)]
    true true = Raise (ZeroDivisionError "division by zero").
Proof.
  apply (hook_raises Sample.self [("downloaded_bytes", VInt 5)]
           [("status", VStr "downloading"); ("downloaded_bytes", VInt 5);
            ("total_bytes", VInt 0)] 5 true true); reflexivity.
Defined.

Lemma eq_str_true (v : value) (s : string) : eq_str v s = true -> v = VStr s.
Proof. destruct v; simpl; try discriminate. now intros ->%String.eqb_eq. Qed.

(** X15. Whenever the hook returns, it has made at most two calls; it has
    moved the progress bar only if one was given, a download is under way
    and the dictionary has both byte counts; it has set the status text only
    if one was given. *)
Theorem hook_calls (self : YouTubeDownloader.t) (d : dict) (progress_bar status_text : bool)
    (calls : list Streamlit.call) :
  progress_hook self d progress_bar status_text = Ok calls ->
  (List.length calls <= 2)%nat /\
  (forall numerator denominator,
      In (Streamlit.BarProgress numerator denominator) calls ->
      progress_bar = true /\
      dict_lookup "status" d = Some (VStr "downloading") /\
      dict_contains "downloaded_bytes" d = true /\
      dict_contains "total_bytes" d = true) /\
  (forall text, In (Streamlit.StatusText text) calls -> status_text = true).
Proof.
  unfold progress_hook, dict_item. intros H.
  destruct (dict_lookup "status" d) as [status |] eqn:Hs; [| discriminate].
  cbn [bind] in H. destruct (eq_str status "downloading") eqn:Hdl.
  - apply eq_str_true in Hdl. subst status.
    destruct (progress_bar && dict_contains "downloaded_bytes" d
              && dict_contains "total_bytes" d) eqn:Hbar.
    + apply andb_true_iff in Hbar as [Hbar Htot]. apply andb_true_iff in Hbar as [Hbar Hdown].
      destruct (dict_lookup "downloaded_bytes" d) as [a |]; [| discriminate].
      destruct (dict_lookup "total_bytes" d) as [b |]; [| discriminate].
      cbn [bind] in H. destruct (truediv a b) as [[x y] | e]; [| discriminate].
      cbn [bind fst snd] in H.
      destruct status_text; injection H as <-; (split; [simpl; lia |]); split;
        intros; simpl in *; intuition (try discriminate; try congruence).
    + cbn [bind] in H. destruct status_text; injection H as <-; (split; [simpl; lia |]);
        split; intros; simpl in *; intuition (try discriminate; try congruence).
  - cbn [bind] in H.
    destruct (eq_str status "finished"), status_text; injection H as <-;
      (split; [simpl; lia |]); split; intros; simpl in *;
      intuition (try discriminate; try congruence).
Qed.

Lemma hook_calls_witness :
  (List.length [Streamlit.BarProgress 5 10; Streamlit.StatusText "Downloading: N/A at N/A"]
   <= 2)%nat.
Proof.
  apply (hook_calls Sample.self
           [("status", VStr "downloading"); ("downloaded_bytes", VInt 5);
            ("total_bytes", VInt 10)] true true
           [Streamlit.BarProgress 5 10; Streamlit.StatusText "Downloading: N/A at N/A"]).
  reflexivity.
Defined.

(** ** What the preview writes *)

Lemma str_app_nil_r (s : string) : s ++ "" = s.
Proof. induction s as [|c s IH]; simpl; [reflexivity | now rewrite IH]. Qed.

Lemma str_app_assoc (a b c : string) : (a ++ b) ++ c = a ++ b ++ c.
Proof. induction a as [|x a IH]; simpl; [reflexivity | now rewrite IH]. Qed.

Lemma preview_line_text (k : nat) (video : video_preview) :
  vp_duration video = VNone \/ (exists S, vp_duration video = VInt S) ->
  App.preview_line (Z.of_nat k + 1) video = Ok (Spec.preview_text k video).
Proof.
  unfold App.preview_line, Spec.preview_text. intros [H | [S H]]; rewrite H.
  - cbn [truthy]. now rewrite str_app_nil_r.
  - cbn [truthy floordiv modulo]. destruct (S =? 0); cbn [negb bind].
    + now rewrite str_app_nil_r.
    + unfold Spec.duration_text.
      rewrite format_0d_two_digit by (pose proof (Z.mod_pos_bound S 60); lia).
      now rewrite !str_app_assoc.
Qed.

Lemma write_preview_all (videos : list video_preview) :
  Forall (fun v => vp_duration v = VNone \/ exists S, vp_duration v = VInt S) videos ->
  forall (n : nat) (written : list string),
    App.write_preview (Z.of_nat n + 1) videos written
    = ((written ++ map (fun kv => Spec.preview_text (fst kv) (snd kv))
                       (combine (seq n (List.length videos)) videos))%list, None).
Proof.
  induction 1 as [|v videos Hv _ IH]; intros n written; cbn [App.write_preview].
  - now rewrite app_nil_r.
  - rewrite (preview_line_text n v Hv).
    replace (Z.of_nat n + 1 + 1) with (Z.of_nat (S n) + 1) by lia.
    rewrite IH. cbn [List.length seq combine map fst snd]. now rewrite <- app_assoc.
Qed.

Lemma nth_error_numbered {A : Type} (l : list A) :
  forall (n k : nat) (x : A),
    nth_error l k = Some x ->
    nth_error (combine (seq n (List.length l)) l) k = Some ((n + k)%nat, x).
Proof.
  induction l as [|y l IH]; intros n [|k] x H; simpl in *; try discriminate.
  - injection H as ->. now rewrite Nat.add_0_r.
  - rewrite (IH (S n) k x H). f_equal. f_equal. lia.
Qed.

(** X16. For a preview whose durations are integers or [None], the loop of
    the preview ends without exception and writes one line for each video,
    in order: the video's number counted from 1, a dot, its title, and,
    unless the duration is [None] or zero, the duration in the same
    minutes:seconds form as that of a single item. A duration of zero seconds
    is not shown. *)
Theorem preview_lines_numbered (info : playlist_info) :
  Forall (fun v => vp_duration v = VNone \/ exists S, vp_duration v = VInt S)
         (pi_videos info) ->
  exists lines,
    App.preview_lines info = (lines, None) /\
    List.length lines = List.length (pi_videos info) /\
    forall k video, nth_error (pi_videos info) k = Some video ->
                    nth_error lines k = Some (Spec.preview_text k video).
Proof.
  intros H. unfold App.preview_lines.
  change 1 with (Z.of_nat 0 + 1). rewrite (write_preview_all _ H 0%nat []).
  eexists. split; [reflexivity |]. cbn [app]. split.
  - rewrite length_map, length_combine, length_seq. lia.
  - intros k video Hk. rewrite nth_error_map, (nth_error_numbered _ 0%nat k video Hk).
    reflexivity.
Qed.

Lemma preview_lines_numbered_witness :
  exists lines,
    App.preview_lines
      (mkPlaylistInfo (VStr "PL") VNone 3
         [mkPreview (VStr "a") (VInt 125); mkPreview (VStr "b") (VInt 0);
          mkPreview (VStr "c") VNone]) = (lines, None) /\
    List.length lines = 3%nat /\
    forall k video,
      nth_error [mkPreview (VStr "a") (VInt 125); mkPreview (VStr "b") (VInt 0);
                 mkPreview (VStr "c") VNone] k = Some video ->
      nth_error lines k = Some (Spec.preview_text k video).
Proof.
  apply (preview_lines_numbered
           (mkPlaylistInfo (VStr "PL") VNone 3
              [mkPreview (VStr "a") (VInt 125); mkPreview (VStr "b") (VInt 0);
               mkPreview (VStr "c") VNone])).
  apply Forall_cons; [right; exists 125; reflexivity |].
  apply Forall_cons; [right; exists 0; reflexivity |].
  apply Forall_cons; [left; reflexivity | apply Forall_nil].
Defined.

(** The three lines of that preview. *)
Example preview_lines_example :
  App.preview_lines
    (mkPlaylistInfo (VStr "PL") VNone 3
       [mkPreview (VStr "a") (VInt 125); mkPreview (VStr "b") (VInt 0);
        mkPreview (VStr "c") VNone])
  = (["1. a (2:05)"; "2. b"; "3. c"], None).
Proof. reflexivity. Qed.

(** ** The view count, with commas *)

Lemma str_of_int_sign (z : Z) :
  str_of_int z = (if z <? 0 then "-" else "") ++ str_of_int (Z.abs z).
Proof. destruct z; reflexivity. Qed.

Lemma list_ascii_app (a b : string) :
  list_ascii_of_string (a ++ b) = (list_ascii_of_string a ++ list_ascii_of_string b)%list.
Proof. induction a as [|c a IH]; simpl; [reflexivity | now rewrite IH]. Qed.

Lemma string_of_list_app (a b : list ascii) :
  string_of_list_ascii (a ++ b) = string_of_list_ascii a ++ string_of_list_ascii b.
Proof. induction a as [|c a IH]; simpl; [reflexivity | now rewrite IH]. Qed.

Lemma uint_digits_no_comma (u : Decimal.uint) :
  filter not_comma (list_ascii_of_string (NilEmpty.string_of_uint u))
  = list_ascii_of_string (NilEmpty.string_of_uint u).
Proof. induction u; simpl; try reflexivity; now rewrite IHu. Qed.

Lemma digits_no_comma (z : Z) :
  filter not_comma (list_ascii_of_string (str_of_int (Z.abs z)))
  = list_ascii_of_string (str_of_int (Z.abs z)).
Proof.
  assert (H : forall u, u <> Decimal.Nil ->
                        NilZero.string_of_uint u = NilEmpty.string_of_uint u).
  { intros [] Hu; try reflexivity. now destruct Hu. }
  unfold str_of_int. destruct z as [| p | p]; try reflexivity; simpl Z.abs;
    cbn [Z.to_int NilZero.string_of_int];
    rewrite H by apply DecimalPos.Unsigned.to_uint_nonnil; apply uint_digits_no_comma.
Qed.

Lemma insert_commas_step (a b c d : ascii) (rest : list ascii) :
  insert_commas (a :: b :: c :: d :: rest) = a :: b :: c :: comma :: insert_commas (d :: rest).
Proof. reflexivity. Qed.

(** The commas are all that [insert_commas] adds. *)
Lemma insert_commas_filter (n : nat) :
  forall l, (List.length l <= n)%nat ->
            filter not_comma (insert_commas l) = filter not_comma l.
Proof.
  induction n as [|n IH]; intros l Hl.
  - destruct l; [reflexivity | simpl in Hl; lia].
  - destruct l as [|a [|b [|c [|d rest]]]]; try reflexivity.
    rewrite insert_commas_step.
    change (a :: b :: c :: comma :: insert_commas (d :: rest))
      with ([a; b; c] ++ comma :: insert_commas (d :: rest))%list.
    change (a :: b :: c :: d :: rest) with ([a; b; c] ++ d :: rest)%list.
    rewrite !filter_app. f_equal.
    change (filter not_comma (comma :: insert_commas (d :: rest)))
      with (filter not_comma (insert_commas (d :: rest))).
    apply IH. simpl in *. lia.
Qed.

Lemma strip_format_comma (z : Z) : Spec.strip_commas (format_comma_int z) = str_of_int z.
Proof.
  unfold Spec.strip_commas, format_comma_int.
  rewrite list_ascii_app, filter_app, list_ascii_of_string_of_list_ascii.
  rewrite filter_rev, (insert_commas_filter _ _ (Nat.le_refl _)), <- filter_rev, rev_involutive.
  rewrite digits_no_comma, string_of_list_app, string_of_list_ascii_of_string.
  rewrite (str_of_int_sign z). now destruct (z <? 0).
Qed.

Lemma small_counts_table :
  forallb (fun z => String.eqb (format_comma_int z) (str_of_int z))
          (map (fun k => Z.of_nat k - 999) (seq 0 1999)) = true.
Proof. vm_compute. reflexivity. Qed.

Lemma format_comma_small (z : Z) : -1000 < z < 1000 -> format_comma_int z = str_of_int z.
Proof.
  intros Hz. pose proof small_counts_table as T. rewrite forallb_forall in T.
  apply String.eqb_eq, T, in_map_iff. exists (Z.to_nat (z + 999)). split; [lia |].
  apply in_seq. lia.
Qed.

(** X17. For an integer view count the views line is the label followed by
    the count with commas: taking the commas out gives the decimal numeral,
    and a count below 1000 in absolute value has none. *)
Theorem views_line_shows_count (info : video_info) (z : Z) :
  vi_views info = VInt z ->
  exists text,
    App.views_line info = Ok ("**Views:** " ++ text) /\
    Spec.strip_commas text = str_of_int z /\
    (-1000 < z < 1000 -> text = str_of_int z).
Proof.
  intros H. exists (format_comma_int z). unfold App.views_line. rewrite H.
  split; [reflexivity |]. split; [apply strip_format_comma | apply format_comma_small].
Qed.

Lemma views_line_shows_count_witness :
  exists text,
    App.views_line (mkVideoInfo (VStr "t") "2:05" VNone (VInt 1234567) VNone (VStr ""))
      = Ok ("**Views:** " ++ text) /\
    Spec.strip_commas text = "1234567" /\
    (-1000 < 1234567 < 1000 -> text = "1234567").
Proof.
  apply (views_line_shows_count
           (mkVideoInfo (VStr "t") "2:05" VNone (VInt 1234567) VNone (VStr "")) 1234567).
  reflexivity.
Defined.

Example views_line_example :
  App.views_line (mkVideoInfo (VStr "t") "2:05" VNone (VInt 1234567) VNone (VStr ""))
  = Ok "**Views:** 1,234,567".
Proof. reflexivity. Qed.

(** X18. An item whose view count is there but is [None] is found by
    [get_video_info], and the views line of its preview then raises
    [TypeError]: the preview fails after the item was reported as found. *)
Theorem views_line_fails_on_none (yt : YtDlp.api) (self : YouTubeDownloader.t) (url : string)
    (d : dict) (S : Z) (description : value) :
  YtDlp.extract_info yt info_opts url false = Ok (Some d) ->
  dict_get d "duration" (VInt 0) = VInt S ->
  description_field (Some d) = Ok description ->
  dict_lookup "view_count" d = Some VNone ->
  exists r, get_video_info yt self url = Ok (Some r) /\
            App.views_line r
            = Raise (TypeError "unsupported format string passed to NoneType.__format__").
Proof.
  intros Hq Hd Hdesc Hv. rewrite (get_video_info_run yt self url d S Hq Hd), Hdesc.
  eexists. split; [reflexivity |]. unfold App.views_line. cbn [vi_views].
  unfold dict_get. rewrite Hv. reflexivity.
Qed.

Lemma views_line_fails_on_none_witness :
  exists r,
    get_video_info (Sample.returning (Some [("title", VStr "t"); ("view_count", VNone)]) "f")
                   Sample.self Sample.url = Ok (Some r) /\
    App.views_line r
    = Raise (TypeError "unsupported format string passed to NoneType.__format__").
Proof.
  apply (views_line_fails_on_none
           (Sample.returning (Some [("title", VStr "t"); ("view_count", VNone)]) "f")
           Sample.self Sample.url [("title", VStr "t"); ("view_count", VNone)] 0 (VStr ""));
    reflexivity.
Defined.

(** * Further properties of the archive builder *)

(** X19. [create_zip] catches nothing. It returns exactly when the archive
    could be opened, every accepted file of the folder as walked could be
    stored, and the archive could be closed; what opening raises leaves the
    operation as it is, and so does what closing raises. *)
Theorem create_zip_returns_exactly_when (os : OS.api) (self : YouTubeDownloader.t)
    (tree : FS.node) (folder_path zip_name : string) :
  ((exists path archive, create_zip os self tree folder_path zip_name = Ok (path, archive))
   <->
   (OS.open_archive os (PathLib.div (download_path self) (zip_name ++ ".zip")) = Ok tt /\
    OS.close_archive os = Ok tt /\
    forall rel n,
      Spec.at_path (walked os (PathLib.div (download_path self) (zip_name ++ ".zip"))
                           (PathLib.parse folder_path) tree) rel n ->
      FS.is_file n = true ->
      OS.store_error os (fold_left PathLib.child rel (PathLib.parse folder_path)) = None))
  /\ (forall e,
        OS.open_archive os (PathLib.div (download_path self) (zip_name ++ ".zip")) = Raise e ->
        create_zip os self tree folder_path zip_name = Raise e)
  /\ (forall e,
        OS.open_archive os (PathLib.div (download_path self) (zip_name ++ ".zip")) = Ok tt ->
        OS.close_archive os = Raise e ->
        create_zip os self tree folder_path zip_name = Raise e).
Proof.
  split; [split |].
  - intros [path [archive H]]. apply create_zip_inv in H as [Ho [Hc [Hs _]]].
    split; [exact Ho |]. split; [exact Hc |]. intros rel n Ha Hf.
    apply (Hs (rel, n)). now apply accepted_at_path.
  - intros [Ho [Hc Hs]]. eexists _, _. apply create_zip_ok; [exact Ho | exact Hc |].
    intros [rel n] Hr. apply accepted_at_path in Hr as [Ha Hf]. exact (Hs rel n Ha Hf).
  - split.
    + intros e Ho. unfold create_zip. now rewrite Ho.
    + intros e Ho Hc. unfold create_zip. rewrite Ho. cbn [bind].
      destruct (for_each _ _ ZipFile.empty); rewrite Hc; reflexivity.
Qed.

(** An archive name that leads into a directory that is not there: the
    archive cannot be created and the exception leaves [create_zip]. *)
Example create_zip_cannot_open :
  create_zip (Sample.os_closed
                (mkExc "FileNotFoundError"
                       "[Errno 2] No such file or directory: 'downloads/no/such.zip'"))
             Sample.self Sample.tree "downloads/My List" "no/such"
  = Raise (mkExc "FileNotFoundError"
                 "[Errno 2] No such file or directory: 'downloads/no/such.zip'").
Proof. reflexivity. Qed.

(** X20. For a folder path without components (the current directory, the
    root), whenever [create_zip] returns, the entries are those of the
    accepted files of the folder as walked, the archive itself among them
    when it lies there, each stored under its path relative to the folder
    alone: the archive has no top-level folder. *)
Theorem archive_without_top_level (os : OS.api) (self : YouTubeDownloader.t)
    (tree : FS.node) (folder_path zip_name : string) (path : string) (archive : ZipFile.t) :
  PathLib.parts (PathLib.parse folder_path) = [] ->
  create_zip os self tree folder_path zip_name = Ok (path, archive) ->
  forall e, In e archive <->
            exists rel n data,
              Spec.at_path (walked os (PathLib.div (download_path self) (zip_name ++ ".zip"))
                                   (PathLib.parse folder_path) tree) rel n /\
              Spec.holds n data /\
              e = ZipFile.mkEntry (PathLib.mkPath "" rel) data.
Proof.
  intros Hp H e. apply create_zip_inv in H as [_ [_ [_ [_ ->]]]].
  unfold Spec.top_level. rewrite Hp. apply (entries_of_tree []).
Qed.

Lemma archive_without_top_level_witness :
  In (ZipFile.mkEntry (PathLib.mkPath "" ["downloads"; "all.zip"]) [Byte.x50; Byte.x4b])
     [ZipFile.mkEntry (PathLib.mkPath "" ["downloads"; "a.mp3"]) Sample.payload;
      ZipFile.mkEntry (PathLib.mkPath "" ["downloads"; "all.zip"]) [Byte.x50; Byte.x4b]] <->
  exists rel n data,
    Spec.at_path
      (walked (Sample.os_inside ["downloads"; "all.zip"] [Byte.x50; Byte.x4b])
              (PathLib.div (download_path Sample.self) ("all" ++ ".zip"))
              (PathLib.parse ".")
              (FS.Dir [("downloads", FS.Dir [("a.mp3", FS.File Sample.payload)])]))
      rel n /\
    Spec.holds n data /\
    ZipFile.mkEntry (PathLib.mkPath "" ["downloads"; "all.zip"]) [Byte.x50; Byte.x4b]
    = ZipFile.mkEntry (PathLib.mkPath "" rel) data.
Proof.
  apply (archive_without_top_level
           (Sample.os_inside ["downloads"; "all.zip"] [Byte.x50; Byte.x4b]) Sample.self
           (FS.Dir [("downloads", FS.Dir [("a.mp3", FS.File Sample.payload)])])
           "." "all" "downloads/all.zip"); reflexivity.
Defined.

(** X21. Directories themselves are never stored. When the archive can be
    opened and closed, a tree without regular files and without links to
    regular files, however many directories it nests, gives an archive
    without entries if the archive lies outside the folder: empty folders
    are lost. If the archive lies in an empty folder, as one of its files,
    and can be stored, it is the one entry of the archive: the archive
    holds itself. *)
Theorem directories_leave_no_entry (os : OS.api) (self : YouTubeDownloader.t)
    (tree : FS.node) (folder_path zip_name : string) :
  OS.open_archive os (PathLib.div (download_path self) (zip_name ++ ".zip")) = Ok tt ->
  OS.close_archive os = Ok tt ->
  Spec.regular_files tree = 0%nat ->
  Spec.file_links tree = 0%nat ->
  (OS.inside os (PathLib.div (download_path self) (zip_name ++ ".zip"))
             (PathLib.parse folder_path) = None ->
   create_zip os self tree folder_path zip_name
   = Ok (PathLib.to_str (PathLib.div (download_path self) (zip_name ++ ".zip")), []))
  /\
  (forall name,
      OS.inside os (PathLib.div (download_path self) (zip_name ++ ".zip"))
                (PathLib.parse folder_path) = Some [name] ->
      tree = FS.Dir [] ->
      OS.store_error os (PathLib.child (PathLib.parse folder_path) name) = None ->
      create_zip os self tree folder_path zip_name
      = Ok (PathLib.to_str (PathLib.div (download_path self) (zip_name ++ ".zip")),
            [ZipFile.mkEntry
               (PathLib.mkPath "" (Spec.top_level (PathLib.parse folder_path) ++ [name]))
               (OS.archive_bytes os)])).
Proof.
  intros Ho Hc Hr Hl. split.
  - intros Hi. rewrite (create_zip_ok os self tree folder_path zip_name Ho Hc);
      unfold walked; rewrite Hi.
    + pose proof (accepted_count tree) as Hn. rewrite Hr, Hl in Hn.
      destruct (Spec.accepted tree); [reflexivity | simpl in Hn; lia].
    + pose proof (accepted_count tree) as Hn. rewrite Hr, Hl in Hn.
      destruct (Spec.accepted tree); [contradiction | simpl in Hn; lia].
  - intros name Hi -> Hs.
    rewrite (create_zip_ok os self (FS.Dir []) folder_path zip_name Ho Hc);
      unfold walked; rewrite Hi.
    + reflexivity.
    + intros r [<- | []]. exact Hs.
Qed.

Lemma directories_leave_no_entry_witness :
  create_zip Sample.os Sample.self
    (FS.Dir [("a", FS.Dir [("b", FS.Dir []); ("c", FS.Special)]); ("d", FS.Dir [])])
    "downloads/PL" "PL"
  = Ok ("downloads/PL.zip", []) /\
  create_zip (Sample.os_inside ["all.zip"] [Byte.x50; Byte.x4b]) Sample.self (FS.Dir [])
             "downloads" "all"
  = Ok ("downloads/all.zip",
        [ZipFile.mkEntry (PathLib.mkPath "" ["downloads"; "all.zip"]) [Byte.x50; Byte.x4b]]).
Proof.
  split.
  - apply (proj1 (directories_leave_no_entry Sample.os Sample.self
                    (FS.Dir [("a", FS.Dir [("b", FS.Dir []); ("c", FS.Special)]);
                             ("d", FS.Dir [])])
                    "downloads/PL" "PL" eq_refl eq_refl eq_refl eq_refl)).
    reflexivity.
  - apply (proj2 (directories_leave_no_entry
                    (Sample.os_inside ["all.zip"] [Byte.x50; Byte.x4b])
                    Sample.self (FS.Dir []) "downloads" "all"
                    eq_refl eq_refl eq_refl eq_refl) "all.zip"); reflexivity.
Defined.

(** ** No stored path twice *)

Lemma nodup_map_inj {A B : Type} (f : A -> B) (l : list A) :
  (forall x y, f x = f y -> x = y) -> NoDup l -> NoDup (map f l).
Proof.
  intros Hinj. induction 1 as [|x l Hx _ IH]; simpl; constructor; [| exact IH].
  intros Hin. apply in_map_iff in Hin as [y [Hy Hin]]. apply Hinj in Hy. now subst.
Qed.

Lemma nodup_map_filter {A B : Type} (f : A -> B) (keep : A -> bool) (l : list A) :
  NoDup (map f l) -> NoDup (map f (filter keep l)).
Proof.
  induction l as [|x l IH]; simpl; intros H; [constructor |].
  apply NoDup_cons_iff in H as [Hx Hl]. destruct (keep x); simpl; [| auto].
  constructor; [| auto]. intros Hin. apply Hx.
  apply in_map_iff in Hin as [y [Hy Hin]]. apply filter_In in Hin as [Hin _].
  apply in_map_iff. eauto.
Qed.

Lemma walk_head (entries : list (string * FS.node)) (rel : list string) :
  In rel (map fst (FS.walk (FS.Dir entries))) ->
  exists name rest, rel = name :: rest /\ In name (map fst entries).
Proof.
  intros H. apply in_map_iff in H as [[rel' n] [<- H]]. apply walk_at_path in H.
  cbn [fst]. inversion H as [es name n' Hin | es name sub rel'' n' Hin _]; subst.
  - exists name, []. split; [reflexivity |]. apply in_map_iff. now exists (name, n).
  - exists name, rel''. split; [reflexivity |]. apply in_map_iff. now exists (name, sub).
Qed.

(** In a tree whose directories hold no name twice, the walk lists no path
    twice. *)
Lemma walk_nodup (tree : FS.node) :
  Spec.distinct_names tree -> NoDup (map fst (FS.walk tree)).
Proof.
  induction tree as [data | entries IH | target |] using node_induction;
    intros Hd; try (simpl; constructor).
  inversion Hd as [| es Hnames Hsub | |]; subst. clear Hd.
  induction entries as [|e entries IHe]; [constructor |].
  rewrite walk_dir_cons. cbn [map fst].
  apply Forall_cons_iff in IH as [IHsub IHrest].
  apply Forall_cons_iff in Hsub as [Hsub Hrest].
  cbn [map] in Hnames. apply NoDup_cons_iff in Hnames as [Hfresh Hnames].
  specialize (IHe IHrest Hnames Hrest). specialize (IHsub Hsub).
  rewrite map_app, map_map. cbn [fst].
  constructor.
  - intros Hin. apply in_app_or in Hin as [Hin | Hin].
    + apply in_map_iff in Hin as [[rel n] [Heq Hin]]. cbn [fst] in Heq.
      injection Heq as ->. apply walk_at_path, at_path_nonempty in Hin. now apply Hin.
    + apply walk_head in Hin as [name [rest [Heq Hin]]]. injection Heq as <- _.
      contradiction.
  - apply NoDup_app.
    + rewrite <- (map_map fst (fun rel => fst e :: rel)).
      apply nodup_map_inj; [| exact IHsub]. intros x y H. now injection H.
    + exact IHe.
    + intros rel Hin Hin'. apply in_map_iff in Hin as [[rel' n] [<- _]].
      apply walk_head in Hin' as [name [rest [Heq Hin']]]. cbn [fst] in Heq.
      injection Heq as <- _. contradiction.
Qed.

Lemma set_entry_keys (name : string) (new : FS.node) (entries : list (string * FS.node))
    (k : string) :
  In k (map fst (FS.set_entry name new entries)) -> In k (map fst entries) \/ k = name.
Proof.
  induction entries as [|e entries IH]; simpl.
  - intros [<- | []]. now right.
  - destruct (String.eqb (fst e) name); simpl; intros [H | H]; auto.
    destruct (IH H); auto.
Qed.

Lemma set_entry_nodup (name : string) (new : FS.node) (entries : list (string * FS.node)) :
  NoDup (map fst entries) -> NoDup (map fst (FS.set_entry name new entries)).
Proof.
  induction entries as [|e entries IH]; simpl; intros H.
  - constructor; [intros [] | constructor].
  - apply NoDup_cons_iff in H as [Hx Hl].
    destruct (String.eqb_spec (fst e) name) as [E | E]; simpl; constructor; auto.
    intros Hin. apply set_entry_keys in Hin as [Hin | Hin]; [contradiction | congruence].
Qed.

Lemma set_entry_forall (P : FS.node -> Prop) (name : string) (new : FS.node)
    (entries : list (string * FS.node)) :
  P new -> Forall (fun e => P (snd e)) entries ->
  Forall (fun e => P (snd e)) (FS.set_entry name new entries).
Proof.
  intros Hn. induction 1 as [|e entries He Hrest IH]; simpl.
  - repeat constructor. exact Hn.
  - destruct (String.eqb (fst e) name); constructor; auto.
Qed.

(** A file put into a tree whose directories hold no name twice leaves such
    a tree. *)
Lemma put_distinct (rel : list string) (new : FS.node) :
  Spec.distinct_names new ->
  forall tree, Spec.distinct_names tree -> Spec.distinct_names (FS.put rel new tree).
Proof.
  intros Hn. induction rel as [|name rest IH]; intros tree Ht; [exact Ht |].
  destruct rest as [|name' rest].
  - destruct tree as [| entries | |]; try exact Ht.
    inversion Ht as [| es Hnames Hsub | |]; subst. cbn [FS.put]. constructor.
    + now apply set_entry_nodup.
    + now apply set_entry_forall.
  - destruct tree as [| entries | |]; try exact Ht.
    inversion Ht as [| es Hnames Hsub | |]; subst.
    change (FS.put (name :: name' :: rest) new (FS.Dir entries))
      with (FS.Dir (map (fun e => if String.eqb (fst e) name
                                  then (fst e, FS.put (name' :: rest) new (snd e)) else e)
                        entries)).
    constructor.
    + rewrite map_map.
      rewrite (map_ext _ fst); [exact Hnames |].
      intros e. now destruct (String.eqb (fst e) name).
    + apply Forall_map. eapply Forall_impl; [| exact Hsub].
      intros e He. destruct (String.eqb (fst e) name); [apply IH |]; exact He.
Qed.

Lemma walked_distinct (os : OS.api) (zip_path folder : PathLib.Path) (tree : FS.node) :
  Spec.distinct_names tree -> Spec.distinct_names (walked os zip_path folder tree).
Proof.
  intros Ht. unfold walked. destruct (OS.inside os zip_path folder); [| exact Ht].
  apply put_distinct; [constructor | exact Ht].
Qed.

(** X22. When no directory of the tree holds two entries of one name, no
    two entries of the archive have the same stored path. *)
Theorem archive_paths_distinct (os : OS.api) (self : YouTubeDownloader.t) (tree : FS.node)
    (folder_path zip_name : string) (path : string) (archive : ZipFile.t) :
  Spec.distinct_names tree ->
  create_zip os self tree folder_path zip_name = Ok (path, archive) ->
  NoDup (map ZipFile.arcname archive).
Proof.
  intros Hd Hrun. apply create_zip_inv in Hrun as [_ [_ [_ [_ ->]]]].
  rewrite map_map. unfold Spec.entry_under. cbn [ZipFile.arcname].
  rewrite <- (map_map fst (fun rel => PathLib.mkPath "" (_ ++ rel))).
  apply nodup_map_inj.
  - intros x y H. injection H as H. now apply app_inv_head in H.
  - apply nodup_map_filter. now apply walk_nodup, walked_distinct.
Qed.

Lemma archive_paths_distinct_witness :
  NoDup (map ZipFile.arcname
             [ZipFile.mkEntry (PathLib.mkPath "" ["My List"; "1 - a.mp3"]) Sample.payload;
              ZipFile.mkEntry (PathLib.mkPath "" ["My List"; "extra"; "2 - b.mp3"])
                              [Byte.x03]]).
Proof.
  apply (archive_paths_distinct Sample.os Sample.self Sample.tree
           "downloads/My List" "My List" "downloads/My List.zip").
  - apply Spec.distinct_dir.
    + repeat (apply NoDup_cons; [simpl; intuition discriminate |]). apply NoDup_nil.
    + repeat (apply Forall_cons || apply Forall_nil); cbn [snd];
        try apply Spec.distinct_file; try apply Spec.distinct_link;
        try apply Spec.distinct_special.
      * apply Spec.distinct_dir;
          [apply NoDup_cons; [simpl; tauto | apply NoDup_nil]
          | apply Forall_cons; [apply Spec.distinct_file | apply Forall_nil]].
      * apply Spec.distinct_dir; [apply NoDup_nil | apply Forall_nil].
  - reflexivity.
Defined.

(** ** Paths as text and back *)

Lemma split_slash_nonempty (s : string) : PathLib.split_slash s <> [].
Proof.
  induction s as [|c s IH]; simpl; [discriminate |].
  destruct (Ascii.eqb c PathLib.slash); [discriminate |].
  destruct (PathLib.split_slash s); discriminate.
Qed.

Lemma split_slash_app (x t : string) :
  str_contains PathLib.slash x = false ->
  PathLib.split_slash (x ++ String PathLib.slash t) = x :: PathLib.split_slash t.
Proof.
  induction x as [|c x IH]; intros H.
  - reflexivity.
  - simpl in H. apply orb_false_iff in H as [Hc Hx].
    cbn [append PathLib.split_slash]. rewrite Hc, (IH Hx). reflexivity.
Qed.

Lemma split_join (l : list string) :
  l <> [] -> Forall (fun c => str_contains PathLib.slash c = false) l ->
  PathLib.split_slash (str_join "/" l) = l.
Proof.
  induction l as [|x l IH]; intros Hne Hl; [now destruct Hne |].
  apply Forall_cons_iff in Hl as [Hx Hl]. destruct l as [|y l].
  - now apply split_slash_single.
  - change (str_join "/" (x :: y :: l)) with (x ++ String PathLib.slash (str_join "/" (y :: l))).
    rewrite (split_slash_app _ _ Hx), IH; [reflexivity | discriminate | exact Hl].
Qed.

Lemma split_slash_components (s : string) :
  Forall (fun c => str_contains PathLib.slash c = false) (PathLib.split_slash s).
Proof.
  induction s as [|c s IH]; simpl; [repeat constructor |].
  destruct (Ascii.eqb c PathLib.slash) eqn:Hc; [constructor; [reflexivity | exact IH] |].
  destruct (PathLib.split_slash s) as [|h t]; [repeat constructor; simpl; now rewrite Hc |].
  apply Forall_cons_iff in IH as [Hh Ht]. constructor; [| exact Ht].
  simpl. now rewrite Hc, Hh.
Qed.

(** What parsing returns is a path as parsing leaves it. *)
Lemma parse_normal (s : string) : Spec.normal (PathLib.parse s).
Proof.
  split.
  - cbn [PathLib.parse PathLib.root].
    destruct s as [|a [|b [|c s]]]; simpl; auto;
      destruct (Ascii.eqb a PathLib.slash); auto;
      try (destruct (Ascii.eqb b PathLib.slash); simpl; auto);
      destruct (Ascii.eqb c PathLib.slash); simpl; auto.
  - cbn [PathLib.parse PathLib.parts]. apply Forall_forall. intros c Hc.
    apply filter_In in Hc as [Hc Hk]. split; [exact Hk |].
    pose proof (split_slash_components s) as H. rewrite Forall_forall in H. now apply H.
Qed.

Lemma filter_kept (l : list string) :
  Forall Spec.component l -> filter PathLib.kept_component l = l.
Proof.
  induction 1 as [|c l [Hk _] _ IH]; simpl; [reflexivity | now rewrite Hk, IH].
Qed.

Lemma filter_kept_empty (l : list string) :
  filter PathLib.kept_component ("" :: l) = filter PathLib.kept_component l.
Proof. reflexivity. Qed.

Lemma joined_begins (c : string) (l : list string) :
  Spec.component c ->
  exists a rest, str_join "/" (c :: l) = String a rest /\ Ascii.eqb a PathLib.slash = false.
Proof.
  intros [Hk Hs]. destruct c as [|a c]; [discriminate |].
  simpl in Hs. apply orb_false_iff in Hs as [Ha _].
  destruct l; simpl; eauto.
Qed.

(** The text of a path parses back to the path. *)
Lemma parse_to_str (p : PathLib.Path) : Spec.normal p -> PathLib.parse (PathLib.to_str p) = p.
Proof.
  destruct p as [root parts]. intros [Hroot Hparts]. cbn [PathLib.root PathLib.parts] in *.
  unfold PathLib.to_str. cbn [PathLib.root PathLib.parts].
  destruct parts as [|c l].
  - destruct Hroot as [-> | [-> | ->]]; reflexivity.
  - pose proof (split_join (c :: l)) as Hsplit.
    assert (Hns : Forall (fun c => str_contains PathLib.slash c = false) (c :: l)).
    { eapply Forall_impl; [| exact Hparts]. now intros x [_ Hx]. }
    specialize (Hsplit ltac:(discriminate) Hns).
    pose proof (filter_kept _ Hparts) as Hkept.
    destruct (joined_begins c l) as [a [rest [Hj Ha]]];
      [now apply Forall_cons_iff in Hparts |].
    unfold PathLib.parse.
    destruct Hroot as [-> | [-> | ->]].
    + change ("" ++ str_join "/" (c :: l)) with (str_join "/" (c :: l)).
      rewrite Hsplit, Hkept. f_equal. rewrite Hj. apply splitroot_relative.
      simpl. exact Ha.
    + change ("/" ++ str_join "/" (c :: l)) with (String PathLib.slash (str_join "/" (c :: l))).
      cbn [PathLib.split_slash]. rewrite Ascii.eqb_refl, Hsplit.
      rewrite filter_kept_empty, Hkept. f_equal.
      rewrite Hj. destruct rest; simpl; now rewrite Ha.
    + change ("//" ++ str_join "/" (c :: l))
        with (String PathLib.slash (String PathLib.slash (str_join "/" (c :: l)))).
      cbn [PathLib.split_slash]. rewrite Ascii.eqb_refl, Hsplit.
      rewrite !filter_kept_empty, Hkept. f_equal.
      rewrite Hj. simpl. now rewrite Ha.
Qed.

Lemma child_normal (p : PathLib.Path) (c : string) :
  Spec.normal p -> Spec.component c -> Spec.normal (PathLib.child p c).
Proof.
  intros [Hroot Hparts] Hc. split; [exact Hroot |].
  cbn [PathLib.child PathLib.parts]. apply Forall_app. split; [exact Hparts | now constructor].
Qed.

Lemma single_component (s : string) :
  str_contains PathLib.slash s = false -> s <> "" -> s <> "." -> Spec.component s.
Proof.
  intros Hs He Hd. split; [| exact Hs]. unfold PathLib.kept_component.
  apply String.eqb_neq in He, Hd. now rewrite He, Hd.
Qed.

Lemma div_single (p : PathLib.Path) (s : string) :
  str_contains PathLib.slash s = false -> s <> "" -> s <> "." ->
  PathLib.div p s = PathLib.child p s.
Proof. intros Hs He Hd. unfold PathLib.div. now rewrite (parse_single s Hs He Hd). Qed.

Lemma str_contains_app (c : ascii) (a b : string) :
  str_contains c (a ++ b) = str_contains c a || str_contains c b.
Proof. induction a as [|x a IH]; simpl; [reflexivity | now rewrite IH, orb_assoc]. Qed.

(** ** From the downloaded collection to its archive *)

Lemma playlist_success_folder (yt : YtDlp.api) (self : YouTubeDownloader.t)
    (url download_type quality audio_format : string)
    (title : string) (count : Z) (folder : string) :
  download_playlist yt self url download_type quality audio_format
    = Ok (true, VStr title, count, Some folder) ->
  folder = PathLib.to_str (PathLib.div (download_path self) title).
Proof.
  unfold download_playlist, try_except. intros H.
  destruct (YtDlp.extract_info yt _ url true) as [[d |] | e]; cbn [bind YtDlp.get] in H;
    try discriminate.
  destruct (len (dict_get d "entries" (VList []))) as [n | e]; cbn [bind] in H;
    [| discriminate].
  destruct (dict_get d "title" (VStr "playlist")) as [| z | t | l | d'];
    cbn [bind PathLib.div_value] in H; try discriminate.
  injection H as -> _ <-. reflexivity.
Qed.

(** X23. As [main] does after a collection was downloaded: when
    [download_playlist] succeeds with a title that is a single path
    component, not the parent directory, and the archive title.zip can be
    created in the base output directory, does not lie in the folder, every
    accepted file can be stored and the archive closed, then [create_zip] on
    the folder and the title returned writes that archive, and stores every
    accepted file of the folder under the top-level folder named by the
    title. *)
Theorem playlist_archive_named_after_title (yt : YtDlp.api) (os : OS.api) (base : string)
    (url download_type quality audio_format : string)
    (title : string) (count : Z) (folder : string) (entries : list (string * FS.node)) :
  download_playlist yt (init base) url download_type quality audio_format
    = Ok (true, VStr title, count, Some folder) ->
  str_contains PathLib.slash title = false ->
  title <> "" -> title <> "." -> title <> ".." ->
  OS.open_archive os (PathLib.child (PathLib.parse base) (title ++ ".zip")) = Ok tt ->
  OS.inside os (PathLib.child (PathLib.parse base) (title ++ ".zip"))
            (PathLib.child (PathLib.parse base) title) = None ->
  (forall file, OS.store_error os file = None) ->
  OS.close_archive os = Ok tt ->
  exists archive,
    create_zip os (init base) (FS.Dir entries) folder title
      = Ok (PathLib.to_str (PathLib.child (PathLib.parse base) (title ++ ".zip")), archive)
    /\ PathLib.parse folder = PathLib.child (PathLib.parse base) title
    /\ forall e, In e archive <->
                 exists rel n data,
                   Spec.at_path (FS.Dir entries) rel n /\ Spec.holds n data /\
                   e = ZipFile.mkEntry (PathLib.mkPath "" (title :: rel)) data.
Proof.
  intros Hrun Hs He Hd _ Ho Hi Hst Hc. apply playlist_success_folder in Hrun.
  cbn [init download_path] in Hrun. rewrite (div_single _ _ Hs He Hd) in Hrun.
  assert (Hfolder : PathLib.parse folder = PathLib.child (PathLib.parse base) title).
  { rewrite Hrun. apply parse_to_str, child_normal;
      [apply parse_normal | now apply single_component]. }
  assert (Hzip : PathLib.div (download_path (init base)) (title ++ ".zip")
                 = PathLib.child (PathLib.parse base) (title ++ ".zip")).
  { cbn [init download_path]. apply div_single.
    - rewrite str_contains_app, Hs. reflexivity.
    - destruct title; discriminate.
    - destruct title as [|a [|b t]]; discriminate. }
  exists (map (Spec.entry_under [title]) (Spec.accepted (FS.Dir entries))).
  split; [| split; [exact Hfolder | intros e; apply (entries_of_tree [title])]].
  rewrite (create_zip_ok os (init base) (FS.Dir entries) folder title)
    by (rewrite ?Hzip; auto).
  unfold walked. rewrite Hzip, Hfolder, Hi.
  now rewrite (top_level_named (PathLib.child (PathLib.parse base) title)
                               (PathLib.parts (PathLib.parse base)) title eq_refl).
Qed.

Lemma playlist_archive_named_after_title_witness :
  exists archive,
    create_zip Sample.os (init "downloads") (FS.Dir [("1 - a.mp3", FS.File Sample.payload)])
               "downloads/PL" "PL"
      = Ok ("downloads/PL.zip", archive)
    /\ PathLib.parse "downloads/PL" = PathLib.mkPath "" ["downloads"; "PL"]
    /\ forall e, In e archive <->
                 exists rel n data,
                   Spec.at_path (FS.Dir [("1 - a.mp3", FS.File Sample.payload)]) rel n /\
                   Spec.holds n data /\
                   e = ZipFile.mkEntry (PathLib.mkPath "" ("PL" :: rel)) data.
Proof.
  apply (playlist_archive_named_after_title
           (Sample.returning (Some (Sample.playlist "PL" [Sample.flat_entry 1])) "f")
           Sample.os "downloads" Sample.url "audio" "best" "mp3" "PL" 1 "downloads/PL"
           [("1 - a.mp3", FS.File Sample.payload)]);
    try reflexivity; discriminate.
Defined.

(** ** The path of a downloaded video *)

(** X24. On success [download_video] returns the title of the item and, as
    output path, exactly the file name the library prepares for it: the
    facade computes no path of its own here, unlike [download_audio], so
    for one and the same item the two operations can report files in
    different places. *)
Theorem video_output_path_is_read_back (yt : YtDlp.api) (self : YouTubeDownloader.t)
    (url quality : string) (d : dict) (title : value) (filename : string) :
  YtDlp.extract_info yt (video_opts self quality) url true = Ok (Some d) ->
  YtDlp.prepare_filename yt (video_opts self quality) (Some d) = Ok filename ->
  dict_lookup "title" d = Some title ->
  download_video yt self url quality = Ok (true, title, Some filename) /\
  forall format,
    YtDlp.extract_info yt (audio_opts self format) url true = Ok (Some d) ->
    download_audio yt self url format
    = Ok (true, title,
          Some (PathLib.to_str (PathLib.div (download_path self) (str title ++ "." ++ format)))).
Proof.
  intros Hq Hf Ht. split.
  - unfold download_video. rewrite Hq. cbn [bind]. rewrite Hf.
    cbn [bind YtDlp.item]. unfold dict_item. now rewrite Ht.
  - intros format Ha. unfold download_audio. rewrite Ha. cbn [bind YtDlp.item].
    unfold dict_item. now rewrite Ht.
Qed.

Lemma video_output_path_is_read_back_witness :
  download_video (Sample.returning (Some (Sample.video "AC/DC" 125 "")) "downloads/AC_DC.mp4")
                 Sample.self Sample.url "720p"
    = Ok (true, VStr "AC/DC", Some "downloads/AC_DC.mp4") /\
  forall format,
    YtDlp.extract_info (Sample.returning (Some (Sample.video "AC/DC" 125 "")) "downloads/AC_DC.mp4")
                       (audio_opts Sample.self format) Sample.url true
      = Ok (Some (Sample.video "AC/DC" 125 "")) ->
    download_audio (Sample.returning (Some (Sample.video "AC/DC" 125 "")) "downloads/AC_DC.mp4")
                   Sample.self Sample.url format
    = Ok (true, VStr "AC/DC",
          Some (PathLib.to_str (PathLib.div (download_path Sample.self)
                                            (str (VStr "AC/DC") ++ "." ++ format)))).
Proof.
  apply (video_output_path_is_read_back
           (Sample.returning (Some (Sample.video "AC/DC" 125 "")) "downloads/AC_DC.mp4")
           Sample.self Sample.url "720p" (Sample.video "AC/DC" 125 "") (VStr "AC/DC")
           "downloads/AC_DC.mp4"); reflexivity.
Defined.
